(** * Auto-App-Builder server: the build / revise / notify pipeline of
      [src/server.js], embedded and verified.

    The development follows the source file top to bottom:

    - [JsString]: JavaScript strings as sequences of UTF-16 code units with
      the string methods the server uses ([startsWith], [substring], [trim],
      [split], [join]) and the fence-stripping step built from them;
    - [Js]: the JSON scalars carried by a request and strict equality;
    - [Effects]: the calls the server makes to its collaborators (GitHub
      through Octokit, the generation service, axios, the console, the HTTP
      response, timers), programs as finite interaction trees over these
      calls, their execution against an arbitrary environment, and a
      weakest-precondition calculus over traces;
    - [Server]: the handler of [POST /api/build] and [processBuildRequest];
    - the properties of the pipeline. *)

From Stdlib Require Import List ZArith NArith Bool Lia String Ascii.
From Stdlib Require Import DecimalString Eqdep_dec.
Import ListNotations.

Set Implicit Arguments.

(* ================================================================= *)
(** ** JavaScript strings *)

Module JsString.

(** A JavaScript string is a sequence of 16-bit code units; [length],
    [substring] and [startsWith] count code units. *)
Definition code_unit := N.
Definition jsstr := list code_unit.

(** A source literal. Every literal of [server.js] is ASCII, so each of its
    characters is one code unit. *)
Definition lit (s : string) : jsstr :=
  List.map N_of_ascii (list_ascii_of_string s).

Definition dquote : jsstr := [34%N].
Definition newline : jsstr := [10%N].
Definition backtick : jsstr := [96%N].
Definition comma : code_unit := 44%N.

Fixpoint concat_all (parts : list jsstr) : jsstr :=
  match parts with
  | [] => []
  | p :: ps => p ++ concat_all ps
  end.

Definition jsstr_eqb (a b : jsstr) : bool :=
  if list_eq_dec N.eq_dec a b then true else false.

(** [String.prototype.startsWith(prefix)]. *)
Fixpoint startsWith (s prefix : jsstr) {struct prefix} : bool :=
  match prefix, s with
  | [], _ => true
  | _ :: _, [] => false
  | p :: ps, c :: cs => N.eqb c p && startsWith cs ps
  end.

(** [String.prototype.substring(start, end)]: both indices are clamped to
    [0 .. length], and swapped when [start > end]. *)
Definition clamp (len i : Z) : Z := Z.max 0 (Z.min i len).

Definition substring (s : jsstr) (start end_ : Z) : jsstr :=
  let len := Z.of_nat (List.length s) in
  let a := clamp len start in
  let b := clamp len end_ in
  let from := Z.min a b in
  let to := Z.max a b in
  firstn (Z.to_nat (to - from)) (skipn (Z.to_nat from) s).

(** The code units [String.prototype.trim] removes: ECMAScript WhiteSpace
    and LineTerminator. *)
Definition is_whitespace (c : code_unit) : bool :=
  (N.eqb c 9 || N.eqb c 10 || N.eqb c 11 || N.eqb c 12 || N.eqb c 13
   || N.eqb c 32 || N.eqb c 160 || N.eqb c 5760
   || (N.leb 8192 c && N.leb c 8202)
   || N.eqb c 8232 || N.eqb c 8233 || N.eqb c 8239 || N.eqb c 8287
   || N.eqb c 12288 || N.eqb c 65279)%bool.

Fixpoint trimStart (s : jsstr) : jsstr :=
  match s with
  | c :: cs => if is_whitespace c then trimStart cs else s
  | [] => []
  end.

Definition trimEnd (s : jsstr) : jsstr := rev (trimStart (rev s)).

Definition trim (s : jsstr) : jsstr := trimEnd (trimStart s).

(** [s] does not begin, and does not end, with a white space code unit. *)
Definition starts_clean (s : jsstr) : bool :=
  match s with
  | [] => true
  | c :: _ => negb (is_whitespace c)
  end.

Definition ends_clean (s : jsstr) : bool := starts_clean (rev s).

(** [String.prototype.split(sep)] for a one-character separator: the result
    always has at least one element. *)
Fixpoint split (sep : code_unit) (s : jsstr) : list jsstr :=
  match s with
  | [] => [[]]
  | c :: cs =>
      if N.eqb c sep then [] :: split sep cs
      else match split sep cs with
           | [] => [[c]]
           | w :: ws => (c :: w) :: ws
           end
  end.

(** [Array.prototype.join(sep)] on an array of strings. *)
Fixpoint join (sep : jsstr) (l : list jsstr) : jsstr :=
  match l with
  | [] => []
  | [x] => x
  | x :: xs => x ++ sep ++ join sep xs
  end.

(** Decimal rendering of an integer, as a template literal does. *)
Definition of_Z (z : Z) : jsstr := lit (NilZero.string_of_int (Z.to_int z)).

(** [sub] occurs verbatim in [s]. *)
Definition Contains (sub s : jsstr) : Prop :=
  exists pre post, s = pre ++ sub ++ post.

(** The fence marker of the generation service's responses. *)
Definition fence_open : jsstr := concat_all [backtick; backtick; backtick; lit "html"].
Definition fence_close : jsstr := concat_all [backtick; backtick; backtick].

(** server.js lines 101-103 and 191-193:
    [if (html.startsWith('```html')) html = html.substring(7, html.length - 3).trim();] *)
Definition stripFence (html : jsstr) : jsstr :=
  if startsWith html fence_open
  then trim (substring html 7 (Z.of_nat (List.length html) - 3))
  else html.

End JsString.

Import JsString.

(* ================================================================= *)
(** ** Request values *)

Module Js.

(** The integers a JavaScript number holds exactly and prints with all their
    digits: those of magnitude at most [2 ^ 53 - 1]. *)
Definition is_safe_integer (z : Z) : bool := (Z.abs z <=? 9007199254740991)%Z.

(** The JSON scalars a request field can hold, and [undefined] for a field
    that is absent. The numbers are the safe integers ([JNum z] is the
    number [z]); the server compares [round] with [1] and [2] only, and
    echoes it. Fractions and numbers beyond the safe integers are left out,
    as arrays and objects are. *)
Inductive JsVal :=
| JUndefined
| JNull
| JBool (b : bool)
| JInt (z : Z) (safe : is_safe_integer z = true)
| JStr (s : jsstr).
Arguments JInt z safe : clear implicits.

Abbreviation JNum z := (JInt z eq_refl).

(** [a === b] on scalars. *)
Definition strict_eq (a b : JsVal) : bool :=
  match a, b with
  | JUndefined, JUndefined => true
  | JNull, JNull => true
  | JBool x, JBool y => Bool.eqb x y
  | JInt x _, JInt y _ => Z.eqb x y
  | JStr x, JStr y => jsstr_eqb x y
  | _, _ => false
  end.

(** A scalar inside a template literal; a safe integer is printed in
    decimal, with all its digits. *)
Definition toString (v : JsVal) : jsstr :=
  match v with
  | JUndefined => lit "undefined"
  | JNull => lit "null"
  | JBool true => lit "true"
  | JBool false => lit "false"
  | JInt z _ => of_Z z
  | JStr s => s
  end.

(** Errors a step can throw: a [TypeError] raised by the runtime, or the
    rejection of a collaborator's promise. *)
Inductive JsError :=
| TypeError (msg : string)
| ServiceError (status : Z) (msg : string).

Record Attachment := { att_name : jsstr; att_url : jsstr }.

(** The body of [POST /api/build], after [express.json()], with the types
    of the data model: [secret] and [round] are any scalar, since the server
    compares them; the text fields are strings; [attachments] and [checks]
    are [None] when the field is absent. A body that holds an array or an
    object where the data model has a string or a number is outside this
    type; so is what such a body does to the template literal of line 54,
    which stands before the [try] of line 56. *)
Record BuildRequest := {
  secret : JsVal;
  task : jsstr;
  round : JsVal;
  brief : jsstr;
  attachments : option (list Attachment);
  checks : option (list jsstr);
  email : jsstr;
  nonce : jsstr;
  evaluation_url : jsstr
}.

(** [notificationPayload], server.js lines 217-221. *)
Record NotificationPayload := {
  p_email : jsstr;
  p_task : jsstr;
  p_round : JsVal;
  p_nonce : jsstr;
  p_repo_url : jsstr;
  p_commit_sha : jsstr;
  p_pages_url : jsstr
}.

(** The [data] of a [repos.getContent] response: the file, base64 encoded,
    and its blob sha. *)
Record ExistingFile := { content : jsstr; sha : jsstr }.

End Js.

Import Js.

(* ================================================================= *)
(** ** Collaborators, programs, traces *)

Module Effects.

(** A promise settles: it resolves with a value or rejects with an error. *)
Inductive Outcome (X : Type) :=
| Resolved (x : X)
| Rejected (e : JsError).
Arguments Resolved {X} x.
Arguments Rejected {X} e.

(** The awaited calls of [server.js], indexed by what they resolve to.
    [generateContent] stands for lines 96-99 (and 186-189): the request to
    the model, the awaited response and its [text()]. *)
Inductive Call : Type -> Type :=
| users_getAuthenticated : Call jsstr
| generateContent (model prompt : jsstr) : Call jsstr
| repos_createForAuthenticatedUser (name : jsstr) (private : bool) : Call unit
| repos_createOrUpdateFileContents
    (owner repo path message file_content : jsstr) (file_sha : option jsstr) : Call unit
| repos_createPagesSite (owner repo branch path : jsstr) : Call unit
| repos_getContent (owner repo path : jsstr) : Call ExistingFile
| repos_getCommit (owner repo ref : jsstr) : Call jsstr
| axios_post (url : jsstr) (payload : NotificationPayload) : Call unit.

Inductive Level := Log | Warn | Error.

Inductive ConsoleArg :=
| ArgStr (s : jsstr)
| ArgErr (e : JsError).

(** What the server does that cannot fail: console output, the HTTP
    response [res.status(s).json({ message })], and a timer wait
    [await new Promise(resolve => setTimeout(resolve, ms))]. *)
Inductive Output :=
| console (lvl : Level) (msg : jsstr) (args : list ConsoleArg)
| res_status_json (status : Z) (message : jsstr)
| setTimeout (ms : Z).

Inductive Event :=
| EvCall (X : Type) (c : Call X) (r : Outcome X)
| EvOut (o : Output).
Arguments EvCall {X} c r.

Definition Trace := list Event.

(** The environment: how each call settles, given everything that happened
    before it. *)
Definition Oracle := forall X : Type, Trace -> Call X -> Outcome X.

(** Programs: finite interaction trees. *)
Inductive Prog (A : Type) :=
| Ret (a : A)
| Throw (e : JsError)
| Await (X : Type) (c : Call X) (k : Outcome X -> Prog A)
| Emit (o : Output) (p : Prog A).
Arguments Ret {A} a.
Arguments Throw {A} e.
Arguments Await {A X} c k.
Arguments Emit {A} o p.

Fixpoint bind {A B} (p : Prog A) (f : A -> Prog B) : Prog B :=
  match p with
  | Ret a => f a
  | Throw e => Throw e
  | Await c k => Await c (fun r => bind (k r) f)
  | Emit o q => Emit o (bind q f)
  end.

(** [try { p } catch (error) { h error }]. *)
Fixpoint try_catch {A} (p : Prog A) (h : JsError -> Prog A) : Prog A :=
  match p with
  | Ret a => Ret a
  | Throw e => h e
  | Await c k => Await c (fun r => try_catch (k r) h)
  | Emit o q => Emit o (try_catch q h)
  end.

(** [await c]: a rejection is thrown. *)
Definition await {X} (c : Call X) : Prog X :=
  Await c (fun r => match r with Resolved x => Ret x | Rejected e => Throw e end).

Definition emit (o : Output) : Prog unit := Emit o (Ret tt).

(** Running a program against an environment, from a history [h]: the
    completion and the history extended by the program's events. *)
Fixpoint run (env : Oracle) {A} (p : Prog A) (h : Trace) : Outcome A * Trace :=
  match p with
  | Ret a => (Resolved a, h)
  | Throw e => (Rejected e, h)
  | Await c k => let r := env _ h c in run env (k r) (h ++ [EvCall c r])
  | Emit o q => run env q (h ++ [EvOut o])
  end.

Definition trace (env : Oracle) {A} (p : Prog A) : Trace := snd (run env p []).

(** Weakest precondition over every environment: [Q] holds of the
    completion and the trace however the calls settle. *)
Fixpoint wp {A} (p : Prog A) (h : Trace) (Q : Outcome A -> Trace -> Prop) : Prop :=
  match p with
  | Ret a => Q (Resolved a) h
  | Throw e => Q (Rejected e) h
  | Await c k => forall r, wp (k r) (h ++ [EvCall c r]) Q
  | Emit o q => wp q (h ++ [EvOut o]) Q
  end.

End Effects.

Import Effects.

Declare Scope prog_scope.
Delimit Scope prog_scope with prog.
Notation "x <- m ;; k" := (bind m (fun x => k))
  (at level 61, m at next level, right associativity) : prog_scope.
Notation "m ;; k" := (bind m (fun _ => k))
  (at level 61, right associativity) : prog_scope.
Open Scope prog_scope.

(* ================================================================= *)
(** ** The server *)

(** Text blocks of [server.js]: a template literal is the join of its lines. *)
Definition lines (l : list jsstr) : jsstr := join newline l.
Definition quote3 : jsstr := dquote ++ dquote ++ dquote.

Definition index_html : jsstr := lit "index.html".
Definition README_md : jsstr := lit "README.md".
Definition LICENSE : jsstr := lit "LICENSE".

(** [licenseContent], lines 111-131. *)
Definition licenseContent : jsstr :=
  lines [
    lit "MIT License";
    [];
    lit "Copyright (c) 2025 [Chenchu Vinay Boga]";
    [];
    lit "Permission is hereby granted, free of charge, to any person obtaining a copy";
    lit "of this software and associated documentation files (the " ++ dquote
      ++ lit "Software" ++ dquote ++ lit "), to deal";
    lit "in the Software without restriction, including without limitation the rights";
    lit "to use, copy, modify, merge, publish, distribute, sublicense, and/or sell";
    lit "copies of the Software, and to permit persons to whom the Software is";
    lit "furnished to do so, subject to the following conditions:";
    [];
    lit "The above copyright notice and this permission notice shall be included in all";
    lit "copies or substantial portions of the Software.";
    [];
    lit "THE SOFTWARE IS PROVIDED " ++ dquote ++ lit "AS IS" ++ dquote
      ++ lit ", WITHOUT WARRANTY OF ANY KIND, EXPRESS OR";
    lit "IMPLIED, INCLUDING BUT NOT LIMITED TO THE WARRANTIES OF MERCHANTABILITY,";
    lit "FITNESS FOR A PARTICULAR PURPOSE AND NONINFRINGEMENT. IN NO EVENT SHALL THE";
    lit "AUTHORS OR COPYRIGHT HOLDERS BE LIABLE FOR ANY CLAIM, DAMAGES OR OTHER";
    lit "LIABILITY, WHETHER IN AN ACTION OF CONTRACT, TORT OR OTHERWISE, ARISING FROM,";
    lit "OUT OF OR IN CONNECTION WITH THE SOFTWARE OR THE USE OR OTHER DEALINGS IN THE";
    lit "SOFTWARE."
  ].

(** [readmeContent], line 133. *)
Definition readmeContent (repoName brief : jsstr) : jsstr :=
  lines [
    lit "# " ++ repoName;
    [];
    lit "## Summary";
    [];
    lit "This project was automatically generated to fulfill the following brief: *"
      ++ brief ++ lit "*";
    [];
    lit "## Setup & Usage";
    [];
    lit "This is a static web page. Simply open the deployed GitHub Pages URL to view and use the application.";
    [];
    lit "## Code Explanation";
    [];
    lit "The application is contained within a single `index.html` file. All styling is provided via a `<style>` tag and all logic is contained within a `<script>` tag.";
    [];
    lit "## License";
    [];
    lit "This project is licensed under the MIT License."
  ].

(** [llmPrompt], lines 72-93; [joinedChecks] is [body.checks.join('\n')]. *)
Definition llmPrompt (brief attachmentContent joinedChecks : jsstr) : jsstr :=
  lines [
    [];
    lit "You are an expert front-end web developer specializing in creating clean, efficient, and self-contained HTML files.";
    lit "## TASK";
    lit "Your task is to create a single, self-contained `index.html` file based on the user's brief.";
    lit "## CONSTRAINTS";
    lit "1. You MUST generate a single `index.html` file.";
    lit "2. All CSS and JavaScript code MUST be embedded directly within the HTML file using `<style>` and `<script>` tags.";
    lit "3. Do not use any external file paths. External libraries from CDNs are allowed if requested.";
    lit "## INPUT & CONTEXT";
    lit "**Brief:**";
    quote3;
    brief;
    quote3;
    lit "**Attachments:**";
    attachmentContent;
    lit "**Evaluation Checks:**";
    lit "The code will be evaluated against these checks:";
    quote3;
    joinedChecks;
    quote3;
    lit "## OUTPUT";
    lit "Provide ONLY the complete HTML code for the `index.html` file, enclosed in a single markdown code block."
  ].

(** [revisionPrompt], lines 164-183. *)
Definition revisionPrompt (originalHtml brief : jsstr) : jsstr :=
  lines [
    [];
    lit "You are an expert front-end web developer who is excellent at modifying and refactoring existing code to add new features.";
    lit "## TASK";
    lit "Your task is to modify the provided HTML code to implement a new feature described in the brief.";
    lit "## CONSTRAINTS";
    lit "1. You MUST return the complete, updated code for the single `index.html` file.";
    lit "2. All new CSS and JavaScript code must also be embedded directly within the HTML file.";
    lit "3. Ensure the original functionality still works correctly alongside the new feature.";
    lit "## INPUT & CONTEXT";
    lit "**Original Code:**";
    lit "This is the existing `index.html` file that you need to modify:";
    fence_open;
    originalHtml;
    fence_close;
    lit "**New Brief for Revision:**";
    quote3;
    brief;
    quote3;
    lit "## OUTPUT";
    lit "Provide ONLY the complete, updated HTML code for the `index.html` file, enclosed in a single markdown code block."
  ].

(** Line 69. *)
Definition attachmentNote (name decodedContent : jsstr) : jsstr :=
  lit "The project uses an attachment named '" ++ name ++ lit "'. Its content is:"
    ++ newline ++ quote3 ++ newline ++ decodedContent ++ newline ++ quote3.

(** Line 209 and line 219. *)
Definition pagesUrl (login repoName : jsstr) : jsstr :=
  lit "https://" ++ login ++ lit ".github.io/" ++ repoName ++ lit "/".

Definition repoUrl (login repoName : jsstr) : jsstr :=
  lit "https://github.com/" ++ login ++ lit "/" ++ repoName.

Definition notificationPayload (body : BuildRequest) (login commitSha : jsstr)
  : NotificationPayload :=
  {| p_email := email body; p_task := task body; p_round := round body;
     p_nonce := nonce body;
     p_repo_url := repoUrl login (task body);
     p_commit_sha := commitSha;
     p_pages_url := pagesUrl login (task body) |}.

Definition console_log (msg : jsstr) : Prog unit := emit (console Log msg []).
Definition console_warn (msg : jsstr) : Prog unit := emit (console Warn msg []).
Definition console_error (msg : jsstr) : Prog unit := emit (console Error msg []).

Definition msg_final_failure : jsstr :=
  lit "Failed to notify evaluation server after multiple retries.".
Definition msg_build_error : jsstr :=
  lit "An error occurred during the build process:".
Definition msg_invalid_secret : jsstr := lit "Error: Invalid secret.".
Definition msg_received : jsstr := lit "Request received and is being processed.".
Definition msg_notified : jsstr := lit "Successfully notified evaluation server.".

(** Line 232; [Math.pow(2, i)] is [2 ^ i]. *)
Definition msg_attempt_failed (i : Z) : jsstr :=
  lit "Attempt " ++ of_Z (i + 1) ++ lit " to notify failed. Retrying in "
    ++ of_Z (2 ^ i) ++ lit "s...".

(** The notification loop, lines 224-235:
    [for (let i = 0; i < 4; i++) { try { await axios.post(..); ..; break; }
       catch (error) { console.warn(..); await wait(Math.pow(2, i) * 1000); } }].
    [remaining] counts the iterations left ([4 - i]); the result is
    [notificationSuccess]. *)
Fixpoint notifyLoop (remaining : nat) (i : Z) (url : jsstr)
    (payload : NotificationPayload) : Prog bool :=
  match remaining with
  | O => Ret false
  | S remaining' =>
      Await (axios_post url payload) (fun r =>
        match r with
        | Resolved _ =>
            console_log msg_notified ;;
            Ret true
        | Rejected _ =>
            console_warn (msg_attempt_failed i) ;;
            emit (setTimeout (2 ^ i * 1000)) ;;
            notifyLoop remaining' (i + 1) url payload
        end)
  end.

(** Lines 224-238: the loop and the final check of [notificationSuccess]. *)
Definition notify (url : jsstr) (payload : NotificationPayload) : Prog unit :=
  notificationSuccess <- notifyLoop 4 0 url payload ;;
  if negb notificationSuccess then console_error msg_final_failure else Ret tt.

Section Server.

(** [Buffer.from(s, 'base64').toString('utf-8')] and
    [Buffer.from(s).toString('base64')], functions of the Node runtime. *)
Variable base64_decode : jsstr -> jsstr.
Variable base64_encode : jsstr -> jsstr.

(** [process.env.STUDENT_SECRET]: a string, or [undefined] when unset. *)
Variable STUDENT_SECRET : option jsstr.

Definition env_secret : JsVal :=
  match STUDENT_SECRET with
  | Some s => JStr s
  | None => JUndefined
  end.

(** Lines 64-70: [attachmentContent]. Only the first attachment is read;
    [url.split(',')[1]] is [undefined] when the url has no comma, and
    [Buffer.from(undefined, 'base64')] throws a [TypeError]. *)
Definition attachmentContent (body : BuildRequest) : Prog jsstr :=
  let atts := match attachments body with Some l => l | None => [] end in
  match atts with
  | [] => Ret (lit "No attachments.")
  | firstAttachment :: _ =>
      match nth_error (split comma (att_url firstAttachment)) 1 with
      | None =>
          Throw (TypeError "The first argument must be of type string or an instance of Buffer, ArrayBuffer, or Array or an Array-like Object. Received undefined")
      | Some payload =>
          Ret (attachmentNote (att_name firstAttachment) (base64_decode payload))
      end
  end.

(** Line 90: [body.checks.join('\n')]; reading [join] of [undefined] throws. *)
Definition joinedChecks (body : BuildRequest) : Prog jsstr :=
  match checks body with
  | None => Throw (TypeError "Cannot read properties of undefined (reading 'join')")
  | Some cs => Ret (join newline cs)
  end.

(** Lines 61-154. *)
Definition round1 (body : BuildRequest) (login repoName : jsstr) : Prog unit :=
  console_log (lit "--- Executing Round 1: Build & Deploy ---") ;;
  attachmentContent <- attachmentContent body ;;
  checksText <- joinedChecks body ;;
  let prompt := llmPrompt (brief body) attachmentContent checksText in
  console_log (lit "Generating code with LLM (Google Gemini)...") ;;
  text <- await (generateContent (lit "gemini-2.5-flash") prompt) ;;
  let generatedHtml := stripFence text in
  console_log (lit "Creating repository: " ++ login ++ lit "/" ++ repoName) ;;
  await (repos_createForAuthenticatedUser repoName false) ;;
  console_log (lit "Pushing files to the repository...") ;;
  let commitMessage := lit "Initial commit: Add application files" in
  await (repos_createOrUpdateFileContents login repoName index_html
           commitMessage (base64_encode generatedHtml) None) ;;
  await (repos_createOrUpdateFileContents login repoName README_md
           commitMessage (base64_encode (readmeContent repoName (brief body))) None) ;;
  await (repos_createOrUpdateFileContents login repoName LICENSE
           commitMessage (base64_encode licenseContent) None) ;;
  console_log (lit "Enabling GitHub Pages...") ;;
  await (repos_createPagesSite login repoName (lit "main") (lit "/")).

(** Lines 156-201. *)
Definition round2 (body : BuildRequest) (login repoName : jsstr) : Prog unit :=
  console_log (lit "--- Executing Round 2: Revise & Redeploy ---") ;;
  console_log (lit "Fetching existing code from " ++ login ++ lit "/" ++ repoName
               ++ lit "...") ;;
  existingFile <- await (repos_getContent login repoName index_html) ;;
  let originalHtml := base64_decode (content existingFile) in
  let prompt := revisionPrompt originalHtml (brief body) in
  console_log (lit "Generating revised code with LLM (Google Gemini)...") ;;
  text <- await (generateContent (lit "gemini-pro") prompt) ;;
  let updatedHtml := stripFence text in
  console_log (lit "Pushing updated file to the repository...") ;;
  await (repos_createOrUpdateFileContents login repoName index_html
           (lit "Feat: Update application based on round 2 brief")
           (base64_encode updatedHtml) (Some (sha existingFile))).

(** Lines 204-238. *)
Definition postRound (body : BuildRequest) (login repoName : jsstr) : Prog unit :=
  commitSha <- await (repos_getCommit login repoName (lit "heads/main")) ;;
  let url := pagesUrl login repoName in
  (if strict_eq (round body) (JNum 1)
   then console_log (lit "Deployment URL (will be active shortly): " ++ url) ;;
        emit (setTimeout 5000)
   else console_log (lit "Redeployment triggered for URL: " ++ url)) ;;
  let payload := notificationPayload body login commitSha in
  emit (console Log (lit "Sending notification to evaluation URL:")
          [ArgStr (evaluation_url body)]) ;;
  notify (evaluation_url body) payload.

(** Lines 52-243. *)
Definition processBuildRequest (body : BuildRequest) : Prog unit :=
  console_log (lit "Processing task: " ++ task body ++ lit ", Round: "
               ++ toString (round body)) ;;
  try_catch
    (let repoName := task body in
     login <- await users_getAuthenticated ;;
     (if strict_eq (round body) (JNum 1) then round1 body login repoName
      else if strict_eq (round body) (JNum 2) then round2 body login repoName
      else Ret tt) ;;
     postRound body login repoName)
    (fun error => emit (console Error msg_build_error [ArgErr error])).

(** Lines 32-47: the handler of [POST /api/build]. *)
Definition handler (body : BuildRequest) : Prog unit :=
  console_log (lit "Received a new build request...") ;;
  if negb (strict_eq (secret body) env_secret)
  then console_error (lit "Invalid secret received.") ;;
       emit (res_status_json 403 msg_invalid_secret)
  else emit (res_status_json 200 msg_received) ;;
       processBuildRequest body.

End Server.

(* ================================================================= *)
(** ** Observing a trace *)

Fixpoint collect {A B} (f : A -> option B) (l : list A) : list B :=
  match l with
  | [] => []
  | a :: l' =>
      match f a with
      | Some b => b :: collect f l'
      | None => collect f l'
      end
  end.

(** The prompt of a call to the generation service. *)
Definition generation_prompt (e : Event) : option jsstr :=
  match e with
  | EvCall c _ => match c with generateContent _ p => Some p | _ => None end
  | EvOut _ => None
  end.

(** The name and visibility of a create-repository call. *)
Definition created_project (e : Event) : option (jsstr * bool) :=
  match e with
  | EvCall c _ =>
      match c with
      | repos_createForAuthenticatedUser n p => Some (n, p)
      | _ => None
      end
  | EvOut _ => None
  end.

(** The path and the version token of an upsert-file call. *)
Definition written_file (e : Event) : option (jsstr * option jsstr) :=
  match e with
  | EvCall c _ =>
      match c with
      | repos_createOrUpdateFileContents _ _ path _ _ token => Some (path, token)
      | _ => None
      end
  | EvOut _ => None
  end.

(** The branch and path of an enable-hosting call. *)
Definition hosting_enabled (e : Event) : option (jsstr * jsstr) :=
  match e with
  | EvCall c _ =>
      match c with
      | repos_createPagesSite _ _ branch path => Some (branch, path)
      | _ => None
      end
  | EvOut _ => None
  end.

(** The target and payload of a notification attempt. *)
Definition notification (e : Event) : option (jsstr * NotificationPayload) :=
  match e with
  | EvCall c _ => match c with axios_post u p => Some (u, p) | _ => None end
  | EvOut _ => None
  end.

(** The arguments of a latest-commit read. *)
Definition commit_read (e : Event) : option (jsstr * jsstr * jsstr) :=
  match e with
  | EvCall c _ => match c with repos_getCommit o r f => Some (o, r, f) | _ => None end
  | EvOut _ => None
  end.

(** The login a resolved identity lookup returned. *)
Definition authenticated (e : Event) : option jsstr :=
  match e with
  | EvCall c r =>
      match c in Call T return Outcome T -> option jsstr with
      | users_getAuthenticated =>
          fun r => match r with Resolved login => Some login | Rejected _ => None end
      | _ => fun _ => None
      end r
  | EvOut _ => None
  end.

(** The file a resolved read of the hosted project returned. *)
Definition file_read (e : Event) : option ExistingFile :=
  match e with
  | EvCall c r =>
      match c in Call T return Outcome T -> option ExistingFile with
      | repos_getContent _ _ _ =>
          fun r => match r with Resolved f => Some f | Rejected _ => None end
      | _ => fun _ => None
      end r
  | EvOut _ => None
  end.

(** The text a resolved generation call returned. *)
Definition generated_text (e : Event) : option jsstr :=
  match e with
  | EvCall c r =>
      match c in Call T return Outcome T -> option jsstr with
      | generateContent _ _ =>
          fun r => match r with Resolved t => Some t | Rejected _ => None end
      | _ => fun _ => None
      end r
  | EvOut _ => None
  end.


(** The length of a timer wait, in milliseconds. *)
Definition wait_ms (e : Event) : option Z :=
  match e with
  | EvOut (setTimeout ms) => Some ms
  | _ => None
  end.

Definition is_call (e : Event) : bool :=
  match e with EvCall _ _ => true | EvOut _ => false end.

Definition rejected {X} (r : Outcome X) : bool :=
  match r with Rejected _ => true | Resolved _ => false end.

(** An upsert-file call that was rejected. *)
Definition failed_write (e : Event) : bool :=
  match e with
  | EvCall c r =>
      match c with
      | repos_createOrUpdateFileContents _ _ _ _ _ _ => rejected r
      | _ => false
      end
  | EvOut _ => false
  end.

(** A generation call, or a call that changes the hosted project. *)
Definition is_generation_or_publish (e : Event) : bool :=
  match e with
  | EvCall c _ =>
      match c with
      | generateContent _ _
      | repos_createForAuthenticatedUser _ _
      | repos_createOrUpdateFileContents _ _ _ _ _ _
      | repos_createPagesSite _ _ _ _ => true
      | _ => false
      end
  | EvOut _ => false
  end.

(** The round reached its post-round phase: the latest commit was asked for. *)
Definition reaches_post_round (tr : Trace) : bool :=
  match collect commit_read tr with [] => false | _ :: _ => true end.

(** The events of consecutive failed notification attempts, from attempt
    [i] on, one per error of [errs]. *)
Fixpoint failed_attempts (errs : list JsError) (i : Z) (url : jsstr)
    (payload : NotificationPayload) : Trace :=
  match errs with
  | [] => []
  | e :: errs' =>
      [EvCall (axios_post url payload) (Rejected e);
       EvOut (console Warn (msg_attempt_failed i) []);
       EvOut (setTimeout (2 ^ i * 1000))]
      ++ failed_attempts errs' (i + 1) url payload
  end.

Definition successful_attempt (url : jsstr) (payload : NotificationPayload) : Trace :=
  [EvCall (axios_post url payload) (Resolved tt);
   EvOut (console Log msg_notified [])].

(** An environment in which every call resolves: the file read returns
    [file], the generation service answers [text]. *)
Definition helpful (login text commit : jsstr) (file : ExistingFile) : Oracle :=
  fun X _ c =>
    match c in Call T return Outcome T with
    | users_getAuthenticated => Resolved login
    | generateContent _ _ => Resolved text
    | repos_createForAuthenticatedUser _ _ => Resolved tt
    | repos_createOrUpdateFileContents _ _ _ _ _ _ => Resolved tt
    | repos_createPagesSite _ _ _ _ => Resolved tt
    | repos_getContent _ _ _ => Resolved file
    | repos_getCommit _ _ _ => Resolved commit
    | axios_post _ _ => Resolved tt
    end.

(** A call to the hosting platform's repository interface. *)
Definition is_repository_call (e : Event) : bool :=
  match e with
  | EvCall c _ =>
      match c with
      | repos_createForAuthenticatedUser _ _
      | repos_createOrUpdateFileContents _ _ _ _ _ _
      | repos_createPagesSite _ _ _ _
      | repos_getContent _ _ _
      | repos_getCommit _ _ _ => true
      | _ => false
      end
  | EvOut _ => false
  end.

(** Events of the handler that the properties name. *)
Definition ev_received : Event :=
  EvOut (console Log (lit "Received a new build request...") []).
Definition ev_invalid_secret : Event :=
  EvOut (console Error (lit "Invalid secret received.") []).
Definition ev_forbidden : Event := EvOut (res_status_json 403 msg_invalid_secret).
Definition ev_acknowledged : Event := EvOut (res_status_json 200 msg_received).
Definition ev_final_failure : Event := EvOut (console Error msg_final_failure []).
Definition ev_build_error (error : JsError) : Event :=
  EvOut (console Error msg_build_error [ArgErr error]).

(* ================================================================= *)
(** ** Sample requests and environments *)

(** A stand-in for the two [Buffer] conversions, for closed examples: the
    properties below hold for every pair of conversions. *)
Definition plain (s : jsstr) : jsstr := s.

Definition sample_secret : jsstr := lit "s3cret".

Definition sample_round1 : BuildRequest :=
  {| secret := JStr sample_secret;
     task := lit "captcha-solver";
     round := JNum 1;
     brief := lit "Show the captcha image and solve it.";
     attachments :=
       Some [ {| att_name := lit "sample.txt";
                 att_url := lit "data:text/plain;base64,aGVsbG8=" |} ];
     checks := Some [lit "Page has a title"; lit "Image is displayed"];
     email := lit "student@example.com";
     nonce := lit "ab12";
     evaluation_url := lit "https://example.com/notify" |}.

Definition with_round (r : JsVal) (b : BuildRequest) : BuildRequest :=
  {| secret := secret b; task := task b; round := r; brief := brief b;
     attachments := attachments b; checks := checks b; email := email b;
     nonce := nonce b; evaluation_url := evaluation_url b |}.

Definition with_secret (v : JsVal) (b : BuildRequest) : BuildRequest :=
  {| secret := v; task := task b; round := round b; brief := brief b;
     attachments := attachments b; checks := checks b; email := email b;
     nonce := nonce b; evaluation_url := evaluation_url b |}.

Definition with_attachments (a : option (list Attachment)) (b : BuildRequest)
  : BuildRequest :=
  {| secret := secret b; task := task b; round := round b; brief := brief b;
     attachments := a; checks := checks b; email := email b;
     nonce := nonce b; evaluation_url := evaluation_url b |}.

Definition sample_round2 : BuildRequest := with_round (JNum 2) sample_round1.
Definition sample_round3 : BuildRequest := with_round (JNum 3) sample_round1.
Definition sample_wrong_secret : BuildRequest :=
  with_secret (JStr (lit "guess")) sample_round1.
Definition sample_no_secret : BuildRequest := with_secret JUndefined sample_round1.

(** A round-1 request whose first attachment is a link, not inline data. *)
Definition sample_linked_attachment : BuildRequest :=
  with_attachments
    (Some [ {| att_name := lit "sample.txt";
               att_url := lit "https://example.com/sample.txt" |} ])
    sample_round1.

Definition sample_file : ExistingFile :=
  {| content := lit "PGgxPm9sZDwvaDE+"; sha := lit "3b18e512" |}.

Definition sample_env : Oracle :=
  helpful (lit "octocat")
          (fence_open ++ newline ++ lit "<h1>new</h1>" ++ newline ++ fence_close)
          (lit "9fceb02") sample_file.

(** The hosting platform refuses a write that carries a version token: the
    file has moved since it was read. *)
Definition stale_env : Oracle :=
  fun X h c =>
    match c in Call T return Outcome T with
    | repos_createOrUpdateFileContents _ _ _ _ _ (Some _) =>
        Rejected (ServiceError 409 "index.html does not match")
    | c' => sample_env h c'
    end.

(** The callback endpoint refuses the first [n] attempts. *)
Definition flaky_env (n : nat) : Oracle :=
  fun X h c =>
    match c in Call T return Outcome T with
    | axios_post _ _ =>
        if (List.length (collect notification h) <? n)%nat
        then Rejected (ServiceError 503 "unavailable")
        else Resolved tt
    | c' => sample_env h c'
    end.

(** The handler's trace on a sample request, with [sample_secret]
    configured. *)
Definition sample_trace (env : Oracle) (body : BuildRequest) : Trace :=
  trace env (handler plain plain (Some sample_secret) body).

Definition sample_payload : NotificationPayload :=
  notificationPayload sample_round1 (lit "octocat") (lit "9fceb02").

(* ================================================================= *)
(** ** Further observations of a trace *)

(** The status and message of an HTTP response. *)
Definition response (e : Event) : option (Z * jsstr) :=
  match e with
  | EvOut (res_status_json status message) => Some (status, message)
  | _ => None
  end.

(** The error of a rejected call that is awaited outside the notification
    loop: such a rejection is thrown, that of [axios.post] is retried. *)
Definition abort_error (e : Event) : option JsError :=
  match e with
  | EvCall c r =>
      match c with
      | axios_post _ _ => None
      | _ => match r with Rejected error => Some error | Resolved _ => None end
      end
  | EvOut _ => None
  end.

(** A notification attempt that was rejected. *)
Definition failed_notification (e : Event) : bool :=
  match e with
  | EvCall c r => match c with axios_post _ _ => rejected r | _ => false end
  | EvOut _ => false
  end.

(** Owner and repository of a call on an existing repository. *)
Definition repo_target (e : Event) : option (jsstr * jsstr) :=
  match e with
  | EvCall c _ =>
      match c with
      | repos_createOrUpdateFileContents o r _ _ _ _ => Some (o, r)
      | repos_createPagesSite o r _ _ => Some (o, r)
      | repos_getContent o r _ => Some (o, r)
      | repos_getCommit o r _ => Some (o, r)
      | _ => None
      end
  | EvOut _ => None
  end.

(** Path, content and version token of an upsert-file call. *)
Definition written_content (e : Event) : option (jsstr * jsstr * option jsstr) :=
  match e with
  | EvCall c _ =>
      match c with
      | repos_createOrUpdateFileContents _ _ path _ file token =>
          Some (path, file, token)
      | _ => None
      end
  | EvOut _ => None
  end.

(** The collaborator calls, by what they do. *)
Inductive Kind :=
| KIdentity | KRead | KGenerate | KCreate | KWrite | KHosting | KCommit | KNotify.

Definition Kind_eq_dec (a b : Kind) : {a = b} + {a <> b}.
Proof. decide equality. Defined.

Definition call_kind (e : Event) : option Kind :=
  match e with
  | EvCall c _ =>
      Some match c with
           | users_getAuthenticated => KIdentity
           | generateContent _ _ => KGenerate
           | repos_createForAuthenticatedUser _ _ => KCreate
           | repos_createOrUpdateFileContents _ _ _ _ _ _ => KWrite
           | repos_createPagesSite _ _ _ _ => KHosting
           | repos_getContent _ _ _ => KRead
           | repos_getCommit _ _ _ => KCommit
           | axios_post _ _ => KNotify
           end
  | EvOut _ => None
  end.

(** The calls of a request before it notifies, in the order of the source:
    lines 58, 97, 106, 137-148, 151, 204 for round 1; lines 58, 159, 187,
    196, 204 for round 2; lines 58 and 204 for any other round. *)
Definition call_order (r : JsVal) : list Kind :=
  if strict_eq r (JNum 1)
  then [KIdentity; KGenerate; KCreate; KWrite; KWrite; KWrite; KHosting; KCommit]
  else if strict_eq r (JNum 2)
       then [KIdentity; KRead; KGenerate; KWrite; KCommit]
       else [KIdentity; KCommit].

Definition with_checks (c : option (list jsstr)) (b : BuildRequest) : BuildRequest :=
  {| secret := secret b; task := task b; round := round b; brief := brief b;
     attachments := attachments b; checks := c; email := email b;
     nonce := nonce b; evaluation_url := evaluation_url b |}.

(** The first attachment, when there is one, carries an inline payload:
    [url.split(',')[1]] of line 68 is defined. *)
Definition first_attachment_inline (body : BuildRequest) : bool :=
  match attachments body with
  | Some (firstAttachment :: _) =>
      match nth_error (split comma (att_url firstAttachment)) 1 with
      | Some _ => true
      | None => false
      end
  | _ => true
  end.

(** A call of kind [k] that resolved. *)
Definition resolved_call (k : Kind) (e : Event) : bool :=
  match e, call_kind e with
  | EvCall _ r, Some k' =>
      (if Kind_eq_dec k k' then true else false) && negb (rejected r)
  | _, _ => false
  end.

(** The steps of the round itself went through, so that the post-round
    phase of line 204 begins: the last call of the round resolved, which is
    the enabling of hosting (line 151) in round 1 and the write of line 196
    in round 2; a request of any other round has no step of its own after
    the identity lookup of line 58. *)
Definition round_completed (r : JsVal) (tr : Trace) : bool :=
  if strict_eq r (JNum 1) then existsb (resolved_call KHosting) tr
  else if strict_eq r (JNum 2) then existsb (resolved_call KWrite) tr
  else existsb (resolved_call KIdentity) tr.

(** A [console.error]. *)
Definition is_error_log (e : Event) : bool :=
  match e with EvOut (console Error _ _) => true | _ => false end.

(** A notification attempt the callback endpoint accepted. *)
Definition delivered (e : Event) : bool :=
  match e with
  | EvCall c r => match c with axios_post _ _ => negb (rejected r) | _ => false end
  | EvOut _ => false
  end.

Definition ev_notified : Event := EvOut (console Log msg_notified []).

(** The time spent in timer waits, in milliseconds. *)
Definition total_wait (tr : Trace) : Z := fold_right Z.add 0%Z (collect wait_ms tr).

(* ================================================================= *)
(** ** String lemmas *)

Lemma startsWith_app (p s : jsstr) : startsWith (p ++ s) p = true.
Proof.
  induction p as [|c p IH]; simpl; [reflexivity|].
  now rewrite N.eqb_refl, IH.
Qed.

Lemma substring_middle (a b c : jsstr) :
  substring (a ++ b ++ c) (Z.of_nat (List.length a))
    (Z.of_nat (List.length (a ++ b ++ c)) - Z.of_nat (List.length c)) = b.
Proof.
  unfold substring, clamp.
  rewrite !length_app.
  set (la := List.length a). set (lb := List.length b). set (lc := List.length c).
  replace (Z.min (Z.max 0 (Z.min (Z.of_nat la) (Z.of_nat (la + (lb + lc)))))
             (Z.max 0 (Z.min (Z.of_nat (la + (lb + lc)) - Z.of_nat lc)
                         (Z.of_nat (la + (lb + lc)))))) with (Z.of_nat la) by lia.
  replace (Z.max (Z.max 0 (Z.min (Z.of_nat la) (Z.of_nat (la + (lb + lc)))))
             (Z.max 0 (Z.min (Z.of_nat (la + (lb + lc)) - Z.of_nat lc)
                         (Z.of_nat (la + (lb + lc)))))) with (Z.of_nat (la + lb)) by lia.
  replace (Z.to_nat (Z.of_nat (la + lb) - Z.of_nat la)) with lb by lia.
  rewrite Nat2Z.id. subst la lb.
  rewrite skipn_app, skipn_all, Nat.sub_diag. simpl.
  rewrite firstn_app, firstn_all, Nat.sub_diag. simpl.
  now rewrite app_nil_r.
Qed.

Lemma trimStart_spec (s : jsstr) :
  exists l, s = l ++ trimStart s /\ forallb is_whitespace l = true
            /\ starts_clean (trimStart s) = true.
Proof.
  induction s as [|c s (l & Hs & Hl & Hc)].
  - exists []. now simpl.
  - simpl. destruct (is_whitespace c) eqn:Hw.
    + exists (c :: l). simpl. rewrite Hw, Hl. repeat split; [now f_equal | exact Hc].
    + exists []. simpl. now rewrite Hw.
Qed.

Lemma trimStart_keeps_last (s : jsstr) (c : code_unit) :
  is_whitespace c = false -> exists s', trimStart (s ++ [c]) = s' ++ [c].
Proof.
  intros Hc. induction s as [|d s [s' IH]]; simpl.
  - rewrite Hc. now exists [].
  - destruct (is_whitespace d).
    + now exists s'.
    + now exists (d :: s).
Qed.

Lemma trimEnd_spec (s : jsstr) :
  exists r, s = trimEnd s ++ r /\ forallb is_whitespace r = true
            /\ ends_clean (trimEnd s) = true.
Proof.
  unfold trimEnd, ends_clean.
  destruct (trimStart_spec (rev s)) as (l & Hs & Hl & Hc).
  exists (rev l). repeat split.
  - rewrite <- rev_app_distr, <- Hs. now rewrite rev_involutive.
  - rewrite forallb_forall in *. intros x Hx. apply Hl. now apply in_rev.
  - now rewrite rev_involutive.
Qed.

Lemma trimEnd_keeps_clean_start (s : jsstr) :
  starts_clean s = true -> starts_clean (trimEnd s) = true.
Proof.
  destruct s as [|c s]; [reflexivity|]. simpl. intros Hc.
  apply negb_true_iff in Hc. unfold trimEnd. simpl.
  destruct (@trimStart_keeps_last (rev s) c Hc) as [s' ->].
  rewrite rev_app_distr. simpl. now rewrite Hc.
Qed.

(** [trim] removes a run of white space at each end and nothing else. *)
Lemma trim_spec (s : jsstr) :
  exists l r, s = l ++ trim s ++ r
              /\ forallb is_whitespace l = true /\ forallb is_whitespace r = true
              /\ starts_clean (trim s) = true /\ ends_clean (trim s) = true.
Proof.
  unfold trim.
  destruct (trimStart_spec s) as (l & Hs & Hl & Hc).
  destruct (trimEnd_spec (trimStart s)) as (r & Hs' & Hr & Hc').
  exists l, r. repeat split; auto.
  - now rewrite <- Hs'.
  - now apply trimEnd_keeps_clean_start.
Qed.

Lemma Contains_app_l (x a b : jsstr) : Contains x b -> Contains x (a ++ b).
Proof.
  intros (pre & post & ->). exists (a ++ pre), post. now rewrite app_assoc.
Qed.

Lemma Contains_app_r (x a b : jsstr) : Contains x a -> Contains x (a ++ b).
Proof.
  intros (pre & post & ->). exists pre, (post ++ b). now rewrite <- !app_assoc.
Qed.

Lemma Contains_refl (x : jsstr) : Contains x x.
Proof. exists [], []. now rewrite app_nil_r. Qed.

Lemma join_cons (sep x : jsstr) (l : list jsstr) :
  exists rest, join sep (x :: l) = x ++ rest.
Proof.
  destruct l; simpl.
  - exists []. now rewrite app_nil_r.
  - now eexists.
Qed.

(** Every element of an array occurs verbatim in its [join]. *)
Lemma join_Contains (sep x : jsstr) (l : list jsstr) :
  In x l -> Contains x (join sep l).
Proof.
  induction l as [|y l IH]; [easy|].
  intros [->|Hin].
  - destruct (join_cons sep x l) as [rest ->].
    apply Contains_app_r, Contains_refl.
  - destruct l as [|z l]; [easy|].
    change (join sep (y :: z :: l)) with (y ++ sep ++ join sep (z :: l)).
    now apply Contains_app_l, Contains_app_l, IH.
Qed.

(* ================================================================= *)
(** ** Program logic *)

(** The calculus is sound for every environment. *)
Lemma wp_sound (env : Oracle) A (p : Prog A) :
  forall h (Q : Outcome A -> Trace -> Prop),
    wp p h Q -> Q (fst (run env p h)) (snd (run env p h)).
Proof.
  induction p as [a|e|X c k IH|o q IH]; simpl; intros h Q H.
  - exact H.
  - exact H.
  - apply IH, H.
  - apply IH, H.
Qed.

Lemma wp_trace (env : Oracle) A (p : Prog A) (P : Trace -> Prop) :
  wp p [] (fun _ tr => P tr) -> P (trace env p).
Proof. intros H. exact (wp_sound env p [] _ H). Qed.

Lemma wp_mono A (p : Prog A) :
  forall h (Q Q' : Outcome A -> Trace -> Prop),
    (forall r tr, Q r tr -> Q' r tr) -> wp p h Q -> wp p h Q'.
Proof.
  induction p as [a|e|X c k IH|o q IH]; simpl; intros h Q Q' HQ H.
  - now apply HQ.
  - now apply HQ.
  - intros r. eapply IH; [exact HQ | apply H].
  - eapply IH; [exact HQ | exact H].
Qed.

Lemma wp_bind A B (p : Prog A) (f : A -> Prog B) :
  forall h (Q : Outcome B -> Trace -> Prop),
    wp p h (fun r tr =>
              match r with
              | Resolved a => wp (f a) tr Q
              | Rejected e => Q (Rejected e) tr
              end) ->
    wp (bind p f) h Q.
Proof.
  induction p as [a|e|X c k IH|o q IH]; simpl; intros h Q H.
  - exact H.
  - exact H.
  - intros r. apply IH, H.
  - apply IH, H.
Qed.

Lemma wp_try_catch A (p : Prog A) (handle : JsError -> Prog A) :
  forall h (Q : Outcome A -> Trace -> Prop),
    wp p h (fun r tr =>
              match r with
              | Resolved a => Q (Resolved a) tr
              | Rejected e => wp (handle e) tr Q
              end) ->
    wp (try_catch p handle) h Q.
Proof.
  induction p as [a|e|X c k IH|o q IH]; simpl; intros h Q H.
  - exact H.
  - exact H.
  - intros r. apply IH, H.
  - apply IH, H.
Qed.

(** A program only ever extends the history. *)
Lemma wp_extends A (p : Prog A) :
  forall h, wp p h (fun _ tr => exists evs, tr = h ++ evs).
Proof.
  induction p as [a|e|X c k IH|o q IH]; simpl; intros h.
  - exists []. now rewrite app_nil_r.
  - exists []. now rewrite app_nil_r.
  - intros r. eapply wp_mono; [|apply IH].
    intros _ tr [evs ->]. rewrite <- app_assoc. now eexists.
  - eapply wp_mono; [|apply IH].
    intros _ tr [evs ->]. rewrite <- app_assoc. now eexists.
Qed.

(** How much of a goal [cbn] may unfold while a program is run symbolically:
    the text blocks stay folded. *)
Arguments lit : simpl never.
Arguments of_Z : simpl never.
Arguments toString : simpl never.
Arguments stripFence : simpl never.
Arguments licenseContent : simpl never.
Arguments readmeContent : simpl never.
Arguments llmPrompt : simpl never.
Arguments revisionPrompt : simpl never.
Arguments attachmentNote : simpl never.
Arguments pagesUrl : simpl never.
Arguments repoUrl : simpl never.
Arguments notificationPayload : simpl never.
Arguments msg_attempt_failed : simpl never.
Arguments index_html : simpl never.
Arguments README_md : simpl never.
Arguments LICENSE : simpl never.
Arguments msg_final_failure : simpl never.
Arguments msg_build_error : simpl never.
Arguments msg_invalid_secret : simpl never.
Arguments msg_received : simpl never.
Arguments msg_notified : simpl never.
Arguments Z.pow : simpl never.
Arguments Z.mul : simpl never.
Arguments Z.add : simpl never.

(* ================================================================= *)
(** ** Fence stripping *)

Example stripFence_typical :
  stripFence (fence_open ++ newline ++ lit "<p>hi</p>" ++ newline ++ fence_close)
  = lit "<p>hi</p>".
Proof. reflexivity. Qed.

Example stripFence_plain : stripFence (lit "<p>hi</p>") = lit "<p>hi</p>".
Proof. reflexivity. Qed.

(** A response that ends with a line break after the closing fence: the
    last three code units are removed whatever they are. *)
Example stripFence_trailing_newline :
  stripFence (fence_open ++ newline ++ lit "<p>hi</p>" ++ newline ++ fence_close
              ++ newline)
  = lit "<p>hi</p>" ++ newline ++ backtick.
Proof. reflexivity. Qed.

Example split_data_uri :
  split comma (lit "data:text/plain;base64,aGk=")
  = [lit "data:text/plain;base64"; lit "aGk="].
Proof. reflexivity. Qed.

(** C3, as stated, fails: on the response [```html\n<p>hi</p>\n```] the
    step returns [<p>hi</p>], not the interior [\n<p>hi</p>\n] between the
    marker and the closing fence: the line breaks of the interior are gone. *)
Lemma stripFence_changes_interior :
  startsWith (fence_open ++ (newline ++ lit "<p>hi</p>" ++ newline) ++ fence_close)
    fence_open = true
  /\ stripFence (fence_open ++ (newline ++ lit "<p>hi</p>" ++ newline) ++ fence_close)
     = lit "<p>hi</p>"
  /\ stripFence (fence_open ++ (newline ++ lit "<p>hi</p>" ++ newline) ++ fence_close)
     <> newline ++ lit "<p>hi</p>" ++ newline.
Proof.
  split; [reflexivity|]. split; [reflexivity|].
  vm_compute. discriminate.
Qed.

(** C3, amended: on a response made of the fence marker, an interior and
    the closing fence, the step returns the interior without the white space
    at its two ends, and otherwise unchanged; a response that does not start
    with the marker is returned as it is. *)
Theorem stripFence_spec :
  (forall interior : jsstr,
      stripFence (fence_open ++ interior ++ fence_close) = trim interior
      /\ exists l r, interior = l ++ trim interior ++ r
                     /\ forallb is_whitespace l = true
                     /\ forallb is_whitespace r = true
                     /\ starts_clean (trim interior) = true
                     /\ ends_clean (trim interior) = true)
  /\ (forall s : jsstr, startsWith s fence_open = false -> stripFence s = s).
Proof.
  split.
  - intros interior. split; [|apply trim_spec].
    unfold stripFence. rewrite startsWith_app.
    change 7%Z with (Z.of_nat (List.length fence_open)).
    change 3%Z with (Z.of_nat (List.length fence_close)).
    now rewrite substring_middle.
  - intros s Hs. unfold stripFence. now rewrite Hs.
Qed.

Lemma stripFence_spec_witness :
  stripFence (fence_open ++ lit " <p>hi</p> " ++ fence_close) = trim (lit " <p>hi</p> ")
  /\ startsWith (lit "<p>hi</p>") fence_open = false
  /\ stripFence (lit "<p>hi</p>") = lit "<p>hi</p>".
Proof.
  split; [apply (proj1 stripFence_spec)|].
  split; [reflexivity|].
  apply (proj2 stripFence_spec). reflexivity.
Defined.

(* ================================================================= *)
(** ** Request intake *)

Lemma jsstr_eqb_eq (a b : jsstr) : jsstr_eqb a b = true <-> a = b.
Proof.
  unfold jsstr_eqb. destruct (list_eq_dec N.eq_dec a b); split; congruence.
Qed.

(** [===] on scalars holds of identical values only: no coercion. *)
Lemma strict_eq_eq (a b : JsVal) : strict_eq a b = true <-> a = b.
Proof.
  destruct a, b; simpl; split; try congruence; try discriminate.
  - intros H. apply Bool.eqb_prop in H. now subst.
  - intros [= ->]. apply Bool.eqb_reflx.
  - intros H. apply Z.eqb_eq in H. subst. f_equal.
    apply Eqdep_dec.UIP_dec, Bool.bool_dec.
  - intros [= ->]. apply Z.eqb_refl.
  - intros H. apply jsstr_eqb_eq in H. now subst.
  - intros [= ->]. now apply jsstr_eqb_eq.
Qed.

Lemma generation_or_publish_is_call (e : Event) :
  is_generation_or_publish e = true -> is_call e = true.
Proof. destruct e as [X c r|o]; [reflexivity | discriminate]. Qed.

Section Intake.

Variable base64_decode : jsstr -> jsstr.
Variable base64_encode : jsstr -> jsstr.
Variable STUDENT_SECRET : option jsstr.
Variable env : Oracle.

Let handle := handler base64_decode base64_encode STUDENT_SECRET.
Let process := processBuildRequest base64_decode base64_encode.

(** What the handler does, by the outcome of the secret check. *)
Lemma handler_trace (body : BuildRequest) :
  trace env (handle body) =
  if strict_eq (secret body) (env_secret STUDENT_SECRET)
  then snd (run env (process body) [ev_received; ev_acknowledged])
  else [ev_received; ev_invalid_secret; ev_forbidden].
Proof.
  unfold trace, handle, handler.
  destruct (strict_eq (secret body) (env_secret STUDENT_SECRET)); reflexivity.
Qed.

Lemma run_extends A (p : Prog A) (h : Trace) :
  exists evs, snd (run env p h) = h ++ evs.
Proof. exact (wp_sound env p h _ (wp_extends p h)). Qed.

(** C5: a request whose secret differs from the configured one is answered
    403, and the handler does nothing else: no call to the generation
    service, to the hosting platform or to the callback endpoint is made. *)
Theorem invalid_secret_forbidden (body : BuildRequest) :
  strict_eq (secret body) (env_secret STUDENT_SECRET) = false ->
  trace env (handle body) = [ev_received; ev_invalid_secret; ev_forbidden]
  /\ existsb is_call (trace env (handle body)) = false.
Proof.
  intros H. rewrite handler_trace, H. split; reflexivity.
Qed.

(** C6: for an accepted request the 200 acknowledgement is the handler's
    second event, and every collaborator call of the request (generation and
    publish calls among them) comes after it in the trace. *)
Theorem acknowledged_before_any_call (body : BuildRequest) :
  strict_eq (secret body) (env_secret STUDENT_SECRET) = true ->
  (exists rest, trace env (handle body) = ev_received :: ev_acknowledged :: rest)
  /\ (forall pre e post,
         trace env (handle body) = pre ++ e :: post ->
         is_generation_or_publish e = true ->
         In ev_acknowledged pre)
  /\ (forall pre e post,
         trace env (handle body) = pre ++ e :: post ->
         is_call e = true ->
         In ev_acknowledged pre).
Proof.
  intros H. rewrite handler_trace, H.
  destruct (run_extends (process body) [ev_received; ev_acknowledged]) as [rest ->].
  assert (Hcalls : forall pre e post,
             [ev_received; ev_acknowledged] ++ rest = pre ++ e :: post ->
             is_call e = true -> In ev_acknowledged pre).
  { intros pre e post Heq Hcall.
    destruct pre as [|a [|b pre]]; simpl in Heq.
    - injection Heq as <- _. discriminate.
    - injection Heq as _ <- _. discriminate.
    - injection Heq as _ <- _. right. now left. }
  split; [now exists rest|]. split; [|exact Hcalls].
  intros pre e post Heq Hgp. apply (Hcalls pre e post Heq).
  now apply generation_or_publish_is_call.
Qed.

(** C9: the authorization check is the strict equality of the request's
    secret and the configured value: the request is processed when the two
    are the same value and refused otherwise; with no secret configured, a
    request without a secret field is processed. *)
Theorem authorization_is_strict_equality :
  (forall body,
      (secret body = env_secret STUDENT_SECRET ->
       trace env (handle body)
       = snd (run env (process body) [ev_received; ev_acknowledged]))
      /\ (secret body <> env_secret STUDENT_SECRET ->
          trace env (handle body) = [ev_received; ev_invalid_secret; ev_forbidden]))
  /\ (forall body,
         STUDENT_SECRET = None -> secret body = JUndefined ->
         trace env (handle body)
         = snd (run env (process body) [ev_received; ev_acknowledged])
         /\ exists rest,
             trace env (handle body)
             = ev_received :: ev_acknowledged
                 :: EvOut (console Log (lit "Processing task: " ++ task body
                                        ++ lit ", Round: " ++ toString (round body)) [])
                 :: rest).
Proof.
  split.
  - intros body. rewrite handler_trace. split; intros H.
    + apply strict_eq_eq in H. now rewrite H.
    + destruct (strict_eq (secret body) (env_secret STUDENT_SECRET)) eqn:E;
        [|reflexivity].
      apply strict_eq_eq in E. contradiction.
  - intros body HS Hb. rewrite handler_trace.
    assert (E : strict_eq (secret body) (env_secret STUDENT_SECRET) = true)
      by (apply strict_eq_eq; rewrite Hb, HS; reflexivity).
    rewrite E. split; [reflexivity|].
    unfold process, processBuildRequest.
    cbn [bind console_log emit run app].
    match goal with |- context [run env ?p ?h] =>
      destruct (run_extends p h) as [rest ->] end.
    exists rest. reflexivity.
Qed.

End Intake.

(* ================================================================= *)
(** ** Deployment notifier *)

Lemma notifyLoop_wp (url : jsstr) (payload : NotificationPayload) (n : nat) :
  forall (i : Z) (h : Trace),
    wp (notifyLoop n i url payload) h
       (fun r tr =>
          exists errs,
            (List.length errs <= n)%nat
            /\ r = Resolved (List.length errs <? n)%nat
            /\ tr = h ++ failed_attempts errs i url payload
                      ++ (if (List.length errs <? n)%nat
                          then successful_attempt url payload else [])).
Proof.
  induction n as [|n IH]; intros i h.
  - simpl. exists []. simpl. now rewrite app_nil_r.
  - simpl. intros [[]|e].
    + simpl. exists []. simpl. repeat split; [lia|].
      now rewrite <- app_assoc.
    + simpl. eapply wp_mono; [|apply IH].
      intros r tr (errs & Hlen & -> & ->).
      exists (e :: errs). repeat split; [simpl; lia|].
      cbn [failed_attempts List.length]. rewrite <- !app_assoc.
      change (S (List.length errs) <? S n)%nat with (List.length errs <? n)%nat.
      reflexivity.
Qed.

Section Notifier.

Variable env : Oracle.

(** C4: a notification delivery is a run of failed attempts, at most four,
    attempt [i] (from zero) being followed by a warning and a wait of
    [2 ^ i] seconds; it ends either with a successful attempt, after which
    nothing is tried again, or, once four attempts have failed, with the
    final-failure log as its last event. No more than four attempts are made,
    all with the same target and payload, and the waits that separate them
    are 1s, 2s and 4s. *)
Theorem notify_delivery (url : jsstr) (payload : NotificationPayload) (h : Trace) :
  exists errs : list JsError,
    let failures := failed_attempts errs 0 url payload in
    let ending :=
      if (List.length errs <? 4)%nat then successful_attempt url payload
      else [ev_final_failure] in
    (List.length errs <= 4)%nat
    /\ snd (run env (notify url payload) h) = h ++ failures ++ ending
    /\ collect notification (failures ++ ending)
       = repeat (url, payload) (Nat.min 4 (List.length errs + 1))
    /\ collect wait_ms (failures ++ ending)
       = firstn (List.length errs) [1000; 2000; 4000; 8000]%Z.
Proof.
  assert (H : wp (notify url payload) h
                (fun _ tr =>
                   exists errs,
                     (List.length errs <= 4)%nat
                     /\ tr = h ++ failed_attempts errs 0 url payload
                               ++ (if (List.length errs <? 4)%nat
                                   then successful_attempt url payload
                                   else [ev_final_failure]))).
  { unfold notify. apply wp_bind. eapply wp_mono; [|apply notifyLoop_wp].
    intros r tr (errs & Hlen & -> & ->).
    destruct (List.length errs <? 4)%nat eqn:E; simpl; exists errs; rewrite E;
      (split; [exact Hlen|]).
    - reflexivity.
    - now rewrite app_nil_r, <- app_assoc. }
  destruct (wp_sound env _ _ _ H) as (errs & Hlen & Htr).
  exists errs. cbv zeta. repeat split; [exact Hlen | exact Htr | |].
  - do 5 (destruct errs as [|? errs]; [reflexivity|]). simpl in Hlen. lia.
  - do 5 (destruct errs as [|? errs]; [reflexivity|]). simpl in Hlen. lia.
Qed.

End Notifier.

(** The endpoint that fails three times and then accepts: four attempts,
    separated by waits of 1s, 2s and 4s. *)
Example notify_three_failures :
  snd (run (flaky_env 3) (notify (lit "https://example.com/notify") sample_payload) [])
  = failed_attempts [ServiceError 503 "unavailable"; ServiceError 503 "unavailable";
                     ServiceError 503 "unavailable"]
      0 (lit "https://example.com/notify") sample_payload
    ++ successful_attempt (lit "https://example.com/notify") sample_payload.
Proof. vm_compute. reflexivity. Qed.

(** The endpoint that always fails: four attempts, a wait after each of
    them (the last one of 8s), then the final-failure log. *)
Example notify_always_failing :
  collect wait_ms
    (snd (run (flaky_env 5) (notify (lit "https://example.com/notify") sample_payload) []))
  = [1000; 2000; 4000; 8000]%Z
  /\ List.length
       (collect notification
          (snd (run (flaky_env 5)
                  (notify (lit "https://example.com/notify") sample_payload) [])))
     = 4%nat
  /\ last (snd (run (flaky_env 5)
                  (notify (lit "https://example.com/notify") sample_payload) []))
          ev_received
     = ev_final_failure.
Proof. vm_compute. repeat split; reflexivity. Qed.

(* ================================================================= *)
(** ** Build orchestrator *)

Lemma split_no_separator (sep : code_unit) (s : jsstr) :
  ~ In sep s -> split sep s = [s].
Proof.
  induction s as [|c s IH]; intros H; simpl; [reflexivity|].
  destruct (N.eqb_spec c sep) as [->|_].
  - exfalso. apply H. now left.
  - rewrite IH; [reflexivity|]. intros Hin. apply H. now right.
Qed.

Lemma split_later A (a : A) (l pre rest : list A) :
  l = pre ++ rest -> a :: l = (a :: pre) ++ rest.
Proof. intros ->. reflexivity. Qed.

(** Proof steps shared by the theorems below. [find_split] cuts an explicit
    trace at the first event that fits the pattern of the goal;
    [find_Contains] finds a piece in a concatenation; [explore] runs a
    program through [wp], one case per way a call can settle;
    [request_cases] names the fields of a request. *)
Ltac find_split :=
  first [ exact (eq_refl : _ = [] ++ _) | apply split_later; find_split ].

Ltac find_Contains tac :=
  first [ apply Contains_app_r; tac
        | apply Contains_app_l; find_Contains tac ].

Ltac explore :=
  cbn;
  repeat match goal with
         | |- forall r : Outcome _, _ =>
             let r := fresh "r" in intros r; destruct r; cbn
         end.

Ltac request_cases body :=
  let sec := fresh "sec" in let tsk := fresh "tsk" in let rnd := fresh "rnd" in
  let brf := fresh "brf" in let atts := fresh "atts" in let chks := fresh "chks" in
  let eml := fresh "eml" in let non := fresh "non" in let url := fresh "url" in
  destruct body as [sec tsk rnd brf atts chks eml non url];
  cbn [secret round checks attachments task brief email nonce evaluation_url] in *.

Ltac all_same :=
  repeat first [ apply Forall_nil | apply Forall_cons; [reflexivity|] ].

(** One leaf of the case analysis of the post-round phase: the round did
    not complete, or the trace is cut at the commit read and, when that
    resolved, at the first notification attempt. *)
Ltac post_round_leaf :=
  let Hp := fresh "Hp" in
  intros [Hp|Hp];
  (first [ discriminate Hp
         | do 4 eexists; split; [find_split|];
           do 3 (split; [reflexivity|]);
           cbn;
           first [ reflexivity
                 | do 3 eexists; split; [find_split|];
                   do 2 (split; [reflexivity|]); all_same ] ]).



Opaque lit.

Section Orchestrator.

Variable base64_decode : jsstr -> jsstr.
Variable base64_encode : jsstr -> jsstr.
Variable STUDENT_SECRET : option jsstr.
Variable env : Oracle.

Let handle := handler base64_decode base64_encode STUDENT_SECRET.

(** C10: an accepted round-1 request without a [checks] field, or whose
    first attachment has a url without a comma, makes no call to the
    repository interface, to the generation service or to the callback
    endpoint: the round throws and the handler's last event is the log of
    that error. *)
Theorem round1_malformed_request_aborts (body : BuildRequest) :
  strict_eq (secret body) (env_secret STUDENT_SECRET) = true ->
  round body = JNum 1 ->
  (checks body = None
   \/ exists a rest, attachments body = Some (a :: rest) /\ ~ In comma (att_url a)) ->
  let tr := trace env (handle body) in
  existsb is_repository_call tr = false
  /\ collect generation_prompt tr = []
  /\ collect notification tr = []
  /\ exists pre error, tr = pre ++ [ev_build_error error].
Proof.
  intros Hs Hr Hbad. cbv zeta.
  pattern (trace env (handle body)). apply wp_trace.
  unfold handle, handler. rewrite Hs.
  unfold processBuildRequest, round1, attachmentContent, joinedChecks.
  destruct body as [sec tsk rnd brf atts chks eml non url].
  cbn [secret round checks attachments task brief email nonce evaluation_url] in *.
  subst rnd.
  destruct Hbad as [->|(a & rest & -> & Hc)].
  - destruct atts as [[|a l]|]; [| destruct (nth_error (split comma (att_url a)) 1) |];
      explore; repeat split; try reflexivity; do 2 eexists; find_split.
  - rewrite split_no_separator by exact Hc.
    destruct chks; explore; repeat split; try reflexivity; do 2 eexists; find_split.
Qed.

Lemma llmPrompt_Contains_brief (brief att joined : jsstr) :
  Contains brief (llmPrompt brief att joined).
Proof.
  unfold llmPrompt, lines. cbn [join]. find_Contains ltac:(apply Contains_refl).
Qed.

Lemma llmPrompt_Contains_check (brief att c : jsstr) (C : list jsstr) :
  In c C -> Contains c (llmPrompt brief att (join newline C)).
Proof.
  intros H. unfold llmPrompt, lines. cbn [join].
  find_Contains ltac:(apply join_Contains; exact H).
Qed.

(** C1, amended: in an accepted round-1 request with brief [B] and checks
    [C], every prompt passed to the generation service contains [B] and each
    element of [C] verbatim; and when the first attachment, if there is one,
    carries an inline payload and no call of the round is rejected, the
    round reaches its post-round phase having made exactly one generation
    call, created exactly one project (named after the task, public),
    written exactly three files (index.html, README.md, LICENSE, in this
    order, without a version token) and enabled hosting exactly once (branch
    main, root path). The same counts hold of every round that reaches its
    post-round phase. *)
Theorem round1_build (body : BuildRequest) (C : list jsstr) :
  strict_eq (secret body) (env_secret STUDENT_SECRET) = true ->
  round body = JNum 1 ->
  checks body = Some C ->
  let tr := trace env (handle body) in
  Forall (fun prompt =>
            Contains (brief body) prompt
            /\ forall c, In c C -> Contains c prompt)
         (collect generation_prompt tr)
  /\ (first_attachment_inline body = true ->
      collect abort_error tr = [] ->
      reaches_post_round tr = true
      /\ List.length (collect generation_prompt tr) = 1%nat
      /\ collect created_project tr = [(task body, false)]
      /\ collect written_file tr
         = [(index_html, None); (README_md, None); (LICENSE, None)]
      /\ collect hosting_enabled tr = [(lit "main", lit "/")])
  /\ (reaches_post_round tr = true ->
      List.length (collect generation_prompt tr) = 1%nat
      /\ collect created_project tr = [(task body, false)]
      /\ collect written_file tr
         = [(index_html, None); (README_md, None); (LICENSE, None)]
      /\ collect hosting_enabled tr = [(lit "main", lit "/")]).
Proof.
  intros Hs Hr Hc. cbv zeta.
  pattern (trace env (handle body)). apply wp_trace.
  unfold handle, handler. rewrite Hs.
  unfold processBuildRequest, round1, postRound, notify, attachmentContent,
    joinedChecks, first_attachment_inline.
  destruct body as [sec tsk rnd brf atts chks eml non url].
  cbn [secret round checks attachments task brief email nonce evaluation_url] in *.
  subst rnd chks.
  destruct atts as [[|a l]|]; [| destruct (nth_error (split comma (att_url a)) 1) |];
    explore.
  all: split;
    [ first [ apply Forall_nil
            | apply Forall_cons;
              [ split; [ apply llmPrompt_Contains_brief
                       | intros c Hin; apply llmPrompt_Contains_check; exact Hin ]
              | apply Forall_nil ] ]
    | split;
      [ intros Hin Hab;
        first [ discriminate Hin | discriminate Hab | repeat split; reflexivity ]
      | intros Hp; try discriminate Hp; repeat split; reflexivity ] ].
Qed.

Lemma revisionPrompt_Contains (originalHtml brief : jsstr) :
  Contains originalHtml (revisionPrompt originalHtml brief)
  /\ Contains brief (revisionPrompt originalHtml brief).
Proof.
  unfold revisionPrompt, lines. cbn [join].
  split; find_Contains ltac:(apply Contains_refl).
Qed.

(** C2: in an accepted round-2 request whose read of index.html returned
    [file] (the document [D] is its decoded content, the version token its
    sha): exactly one generation call is made, and its prompt contains [D]
    in full and the new brief; every upsert-file call is for index.html and
    carries that token, and there is exactly one once the generation call
    has resolved; when the upsert is rejected (a stale token), no
    notification call is made, the post-round phase is not reached, and the
    handler ends with the log of the error. *)
Theorem round2_revise (body : BuildRequest) (file : ExistingFile) :
  strict_eq (secret body) (env_secret STUDENT_SECRET) = true ->
  round body = JNum 2 ->
  let tr := trace env (handle body) in
  collect file_read tr = [file] ->
  (exists prompt,
      collect generation_prompt tr = [prompt]
      /\ Contains (base64_decode (content file)) prompt
      /\ Contains (brief body) prompt)
  /\ Forall (fun w => w = (index_html, Some (sha file))) (collect written_file tr)
  /\ (collect generated_text tr <> [] ->
      collect written_file tr = [(index_html, Some (sha file))])
  /\ (existsb failed_write tr = true ->
      collect notification tr = []
      /\ reaches_post_round tr = false
      /\ exists pre error, tr = pre ++ [ev_build_error error]).
Proof.
  intros Hs Hr. cbv zeta.
  pattern (trace env (handle body)). apply wp_trace.
  unfold handle, handler. rewrite Hs.
  unfold processBuildRequest, round2, postRound, notify.
  destruct body as [sec tsk rnd brf atts chks eml non url].
  cbn [secret round checks attachments task brief email nonce evaluation_url] in *.
  subst rnd. explore.
  all: intros Hf; try discriminate Hf; injection Hf as ->.
  all: split; [eexists; split; [reflexivity | apply revisionPrompt_Contains] |].
  all: split; [first [apply Forall_nil | apply Forall_cons; [reflexivity | apply Forall_nil]] |].
  all: split; [intros Hg; first [reflexivity | now contradiction Hg] |].
  all: intros Hw; try discriminate Hw.
  all: repeat split; try reflexivity; do 2 eexists; find_split.
Qed.


(** C7: when the round of an accepted request has completed (its last
    step resolved), and so whenever the post-round phase is reached, the
    latest commit of [login/task] on [heads/main] is read, [login] being the
    identity resolved before; if the read fails the round ends with the log
    of the error; otherwise the first notification attempt follows with no
    other call in between, after one wait of 5000 ms when [round] is 1 and
    no wait otherwise; its payload echoes [email], [task], [round] and
    [nonce] of the request and carries the repository url, the commit
    identifier just read and the hosting url computed from [login] and
    [task]; every later attempt has the same target and payload. *)
Theorem post_round_reports (body : BuildRequest) :
  strict_eq (secret body) (env_secret STUDENT_SECRET) = true ->
  let tr := trace env (handle body) in
  round_completed (round body) tr = true \/ reaches_post_round tr = true ->
  exists login pre r post,
    tr = pre ++ EvCall (repos_getCommit login (task body) (lit "heads/main")) r :: post
    /\ collect authenticated pre = [login]
    /\ collect commit_read pre = []
    /\ collect notification pre = []
    /\ match r with
       | Rejected error => post = [ev_build_error error]
       | Resolved commitSha =>
           let payload :=
             {| p_email := email body; p_task := task body; p_round := round body;
                p_nonce := nonce body;
                p_repo_url := lit "https://github.com/" ++ login ++ lit "/" ++ task body;
                p_commit_sha := commitSha;
                p_pages_url := lit "https://" ++ login ++ lit ".github.io/"
                                 ++ task body ++ lit "/" |} in
           exists mid r' post',
             post = mid ++ EvCall (axios_post (evaluation_url body) payload) r' :: post'
             /\ existsb is_call mid = false
             /\ collect wait_ms mid
                = (if strict_eq (round body) (JNum 1) then [5000%Z] else [])
             /\ Forall (fun n => n = (evaluation_url body, payload))
                       (collect notification post')
       end.
Proof.
  intros Hs. cbv zeta.
  pattern (trace env (handle body)). apply wp_trace.
  unfold handle, handler. rewrite Hs.
  unfold processBuildRequest, round1, round2, postRound, notify,
    attachmentContent, joinedChecks, round_completed.
  request_cases body.
  destruct (strict_eq rnd (JNum 1)) eqn:E1; [|destruct (strict_eq rnd (JNum 2)) eqn:E2].
  - destruct atts as [[|a l]|]; [| destruct (nth_error (split comma (att_url a)) 1) |];
      destruct chks; explore; rewrite ?E1; post_round_leaf.
  - explore; rewrite ?E1; post_round_leaf.
  - explore; rewrite ?E1; post_round_leaf.
Qed.


End Orchestrator.

Transparent lit.

(* ================================================================= *)
(** ** The properties on the sample requests *)

Example round1_sample_trace :
  collect created_project (sample_trace sample_env sample_round1)
  = [(lit "captcha-solver", false)]
  /\ collect written_file (sample_trace sample_env sample_round1)
     = [(index_html, None); (README_md, None); (LICENSE, None)]
  /\ collect wait_ms (sample_trace sample_env sample_round1) = [5000%Z]
  /\ List.length (collect notification (sample_trace sample_env sample_round1)) = 1%nat.
Proof. vm_compute. repeat split; reflexivity. Qed.

(** A stale version token: the write is refused and nobody is notified. *)
Example round2_stale_token :
  existsb failed_write (sample_trace stale_env sample_round2) = true
  /\ collect notification (sample_trace stale_env sample_round2) = []
  /\ last (sample_trace stale_env sample_round2) ev_received
     = ev_build_error (ServiceError 409 "index.html does not match").
Proof. vm_compute. repeat split; reflexivity. Qed.

(** C1, as stated, fails: this accepted round-1 request has a brief and
    checks, and every collaborator call resolves; its first attachment is a
    link without inline payload, the round throws while it builds the
    prompt, and no project is created, no file written, hosting not enabled,
    no prompt sent. *)
Lemma round1_linked_attachment_creates_nothing :
  strict_eq (secret sample_linked_attachment) (env_secret (Some sample_secret)) = true
  /\ round sample_linked_attachment = JNum 1
  /\ checks sample_linked_attachment
     = Some [lit "Page has a title"; lit "Image is displayed"]
  /\ List.length (collect created_project
                    (sample_trace sample_env sample_linked_attachment)) <> 1%nat
  /\ List.length (collect written_file
                    (sample_trace sample_env sample_linked_attachment)) <> 3%nat
  /\ List.length (collect hosting_enabled
                    (sample_trace sample_env sample_linked_attachment)) <> 1%nat
  /\ collect generation_prompt (sample_trace sample_env sample_linked_attachment) = [].
Proof. vm_compute. repeat split; discriminate. Qed.

Lemma round1_build_witness :
  strict_eq (secret sample_round1) (env_secret (Some sample_secret)) = true
  /\ round sample_round1 = JNum 1
  /\ checks sample_round1 = Some [lit "Page has a title"; lit "Image is displayed"]
  /\ first_attachment_inline sample_round1 = true
  /\ collect abort_error (sample_trace sample_env sample_round1) = []
  /\ Forall (fun prompt =>
               Contains (brief sample_round1) prompt
               /\ forall c, In c [lit "Page has a title"; lit "Image is displayed"] ->
                            Contains c prompt)
            (collect generation_prompt (sample_trace sample_env sample_round1))
  /\ reaches_post_round (sample_trace sample_env sample_round1) = true
  /\ List.length (collect generation_prompt (sample_trace sample_env sample_round1))
     = 1%nat
  /\ collect created_project (sample_trace sample_env sample_round1)
     = [(task sample_round1, false)]
  /\ collect written_file (sample_trace sample_env sample_round1)
     = [(index_html, None); (README_md, None); (LICENSE, None)]
  /\ collect hosting_enabled (sample_trace sample_env sample_round1)
     = [(lit "main", lit "/")].
Proof.
  assert (Ha : strict_eq (secret sample_round1) (env_secret (Some sample_secret)) = true)
    by (vm_compute; reflexivity).
  assert (Hi : first_attachment_inline sample_round1 = true)
    by (vm_compute; reflexivity).
  assert (Hn : collect abort_error (sample_trace sample_env sample_round1) = [])
    by (vm_compute; reflexivity).
  destruct (@round1_build plain plain (Some sample_secret) sample_env sample_round1
              [lit "Page has a title"; lit "Image is displayed"] Ha eq_refl eq_refl)
    as (Hprompt & Hdone & _).
  split; [exact Ha|]. split; [reflexivity|]. split; [reflexivity|].
  split; [exact Hi|]. split; [exact Hn|]. split; [exact Hprompt|].
  exact (Hdone Hi Hn).
Defined.

Lemma round2_revise_witness :
  strict_eq (secret sample_round2) (env_secret (Some sample_secret)) = true
  /\ round sample_round2 = JNum 2
  /\ collect file_read (sample_trace sample_env sample_round2) = [sample_file]
  /\ (exists prompt,
         collect generation_prompt (sample_trace sample_env sample_round2) = [prompt]
         /\ Contains (plain (content sample_file)) prompt
         /\ Contains (brief sample_round2) prompt)
  /\ Forall (fun w => w = (index_html, Some (sha sample_file)))
            (collect written_file (sample_trace sample_env sample_round2)).
Proof.
  assert (Ha : strict_eq (secret sample_round2) (env_secret (Some sample_secret)) = true)
    by (vm_compute; reflexivity).
  assert (Hf : collect file_read (sample_trace sample_env sample_round2) = [sample_file])
    by (vm_compute; reflexivity).
  destruct (@round2_revise plain plain (Some sample_secret) sample_env sample_round2
              sample_file Ha eq_refl Hf) as (Hprompt & Hwrite & _).
  split; [exact Ha|]. split; [reflexivity|]. split; [exact Hf|].
  split; [exact Hprompt | exact Hwrite].
Defined.

Lemma invalid_secret_forbidden_witness :
  strict_eq (secret sample_wrong_secret) (env_secret (Some sample_secret)) = false
  /\ sample_trace sample_env sample_wrong_secret
     = [ev_received; ev_invalid_secret; ev_forbidden]
  /\ existsb is_call (sample_trace sample_env sample_wrong_secret) = false.
Proof.
  assert (Hs : strict_eq (secret sample_wrong_secret) (env_secret (Some sample_secret))
               = false) by (vm_compute; reflexivity).
  split; [exact Hs|].
  exact (@invalid_secret_forbidden plain plain (Some sample_secret) sample_env
           sample_wrong_secret Hs).
Defined.

Lemma acknowledged_before_any_call_witness :
  strict_eq (secret sample_round1) (env_secret (Some sample_secret)) = true
  /\ (exists rest,
         sample_trace sample_env sample_round1 = ev_received :: ev_acknowledged :: rest)
  /\ (forall pre e post,
         sample_trace sample_env sample_round1 = pre ++ e :: post ->
         is_generation_or_publish e = true ->
         In ev_acknowledged pre)
  /\ (forall pre e post,
         sample_trace sample_env sample_round1 = pre ++ e :: post ->
         is_call e = true ->
         In ev_acknowledged pre).
Proof.
  assert (Ha : strict_eq (secret sample_round1) (env_secret (Some sample_secret)) = true)
    by (vm_compute; reflexivity).
  split; [exact Ha|].
  exact (@acknowledged_before_any_call plain plain (Some sample_secret) sample_env
           sample_round1 Ha).
Defined.

Lemma authorization_is_strict_equality_witness :
  secret sample_no_secret = env_secret None
  /\ trace sample_env (handler plain plain None sample_no_secret)
     = snd (run sample_env (processBuildRequest plain plain sample_no_secret)
              [ev_received; ev_acknowledged])
  /\ secret sample_round1 <> env_secret None
  /\ trace sample_env (handler plain plain None sample_round1)
     = [ev_received; ev_invalid_secret; ev_forbidden].
Proof.
  split; [reflexivity|].
  split.
  - exact (proj1 (proj1 (@authorization_is_strict_equality plain plain None sample_env)
                    sample_no_secret) eq_refl).
  - assert (Hd : secret sample_round1 <> env_secret None) by discriminate.
    split; [exact Hd|].
    exact (proj2 (proj1 (@authorization_is_strict_equality plain plain None sample_env)
                    sample_round1) Hd).
Defined.

Lemma post_round_reports_witness :
  strict_eq (secret sample_round1) (env_secret (Some sample_secret)) = true
  /\ round_completed (round sample_round1) (sample_trace sample_env sample_round1) = true
  /\ (
  exists login pre r post,
    (sample_trace sample_env sample_round1) = pre ++ EvCall (repos_getCommit login (task sample_round1) (lit "heads/main")) r :: post
    /\ collect authenticated pre = [login]
    /\ collect commit_read pre = []
    /\ collect notification pre = []
    /\ match r with
       | Rejected error => post = [ev_build_error error]
       | Resolved commitSha =>
           let payload :=
             {| p_email := email sample_round1; p_task := task sample_round1; p_round := round sample_round1;
                p_nonce := nonce sample_round1;
                p_repo_url := lit "https://github.com/" ++ login ++ lit "/" ++ task sample_round1;
                p_commit_sha := commitSha;
                p_pages_url := lit "https://" ++ login ++ lit ".github.io/"
                                 ++ task sample_round1 ++ lit "/" |} in
           exists mid r' post',
             post = mid ++ EvCall (axios_post (evaluation_url sample_round1) payload) r' :: post'
             /\ existsb is_call mid = false
             /\ collect wait_ms mid
                = (if strict_eq (round sample_round1) (JNum 1) then [5000%Z] else [])
             /\ Forall (fun n => n = (evaluation_url sample_round1, payload))
                       (collect notification post')
       end).
Proof.
  assert (Ha : strict_eq (secret sample_round1) (env_secret (Some sample_secret)) = true)
    by (vm_compute; reflexivity).
  assert (Hc : round_completed (round sample_round1)
                 (sample_trace sample_env sample_round1) = true)
    by (vm_compute; reflexivity).
  split; [exact Ha|]. split; [exact Hc|].
  exact (@post_round_reports plain plain (Some sample_secret) sample_env
           sample_round1 Ha (or_introl Hc)).
Defined.


Lemma round1_malformed_request_aborts_witness :
  strict_eq (secret sample_linked_attachment) (env_secret (Some sample_secret)) = true
  /\ round sample_linked_attachment = JNum 1
  /\ ~ In comma (lit "https://example.com/sample.txt")
  /\ existsb is_repository_call (sample_trace sample_env sample_linked_attachment) = false
  /\ collect generation_prompt (sample_trace sample_env sample_linked_attachment) = []
  /\ collect notification (sample_trace sample_env sample_linked_attachment) = []
  /\ exists pre error,
       sample_trace sample_env sample_linked_attachment = pre ++ [ev_build_error error].
Proof.
  assert (Ha : strict_eq (secret sample_linked_attachment)
                 (env_secret (Some sample_secret)) = true) by (vm_compute; reflexivity).
  assert (Hc : ~ In comma (lit "https://example.com/sample.txt"))
    by (vm_compute; intuition discriminate).
  split; [exact Ha|]. split; [reflexivity|]. split; [exact Hc|].
  apply (@round1_malformed_request_aborts plain plain (Some sample_secret) sample_env
           sample_linked_attachment Ha eq_refl).
  right. eexists. eexists. split; [reflexivity | exact Hc].
Defined.

(* ================================================================= *)
(** ** Fence stripping, beyond well-formed responses *)

Lemma Contains_trans (a b c : jsstr) : Contains a b -> Contains b c -> Contains a c.
Proof.
  intros (p1 & q1 & ->) (p2 & q2 & ->).
  exists (p2 ++ p1), (q1 ++ q2). now rewrite <- !app_assoc.
Qed.

Lemma substring_Contains (s : jsstr) (a b : Z) : Contains (substring s a b) s.
Proof.
  unfold substring. cbv zeta.
  match goal with
  | |- Contains (firstn ?n (skipn ?m s)) s =>
      exists (firstn m s), (skipn n (skipn m s))
  end.
  now rewrite !firstn_skipn.
Qed.

Lemma trim_Contains (s : jsstr) : Contains (trim s) s.
Proof. destruct (trim_spec s) as (l & r & H & _). now exists l, r. Qed.

Lemma Contains_length (a b : jsstr) :
  Contains a b -> (List.length a <= List.length b)%nat.
Proof. intros (p & q & ->). rewrite !length_app. lia. Qed.

(** X13: the step never checks the closing fence: on a response that
    starts with the marker, the last three code units are removed whatever
    they are. *)
Theorem stripFence_drops_any_tail (interior tail : jsstr) :
  List.length tail = 3%nat ->
  stripFence (fence_open ++ interior ++ tail) = trim interior.
Proof.
  intros Ht. unfold stripFence. rewrite startsWith_app.
  change 7%Z with (Z.of_nat (List.length fence_open)).
  replace 3%Z with (Z.of_nat (List.length tail)) by (rewrite Ht; reflexivity).
  now rewrite substring_middle.
Qed.

Lemma stripFence_drops_any_tail_witness :
  List.length (lit "``" ++ newline) = 3%nat
  /\ stripFence (fence_open ++ (newline ++ lit "<p>hi</p>" ++ newline ++ backtick)
                 ++ (lit "``" ++ newline))
     = trim (newline ++ lit "<p>hi</p>" ++ newline ++ backtick).
Proof.
  split; [reflexivity|].
  apply stripFence_drops_any_tail. reflexivity.
Defined.

(** X14: a response made of the marker and fewer than three further code
    units is shorter than marker and fence together; the two indices of
    [substring] cross, are swapped, and the result is the end of the marker
    itself ([tml], [ml] or [l]), not the empty string. *)
Theorem stripFence_short_response (t : jsstr) :
  (List.length t < 3)%nat ->
  stripFence (fence_open ++ t) = skipn (4 + List.length t) fence_open.
Proof.
  intros Ht.
  destruct t as [|a [|b [|c t]]]; [reflexivity | reflexivity | reflexivity |].
  simpl in Ht. lia.
Qed.

Lemma stripFence_short_response_witness :
  (List.length (lit "``") < 3)%nat
  /\ stripFence (fence_open ++ lit "``") = lit "l".
Proof.
  split; [simpl; lia|].
  apply (stripFence_short_response (lit "``")). simpl. lia.
Defined.

(** X15: the result of the step is always a contiguous piece of the
    response, so never longer than it; when the response starts with the
    marker the result neither begins nor ends with white space. *)
Theorem stripFence_piece_of_response (s : jsstr) :
  Contains (stripFence s) s
  /\ (List.length (stripFence s) <= List.length s)%nat
  /\ (startsWith s fence_open = true ->
      starts_clean (stripFence s) = true /\ ends_clean (stripFence s) = true).
Proof.
  assert (H : Contains (stripFence s) s).
  { unfold stripFence. destruct (startsWith s fence_open).
    - eapply Contains_trans; [apply trim_Contains | apply substring_Contains].
    - apply Contains_refl. }
  split; [exact H|]. split; [now apply Contains_length|].
  intros Hs. unfold stripFence. rewrite Hs.
  destruct (trim_spec (substring s 7 (Z.of_nat (List.length s) - 3)))
    as (l & r & _ & _ & _ & Hc & Hc').
  now split.
Qed.

Lemma stripFence_piece_of_response_witness :
  startsWith (fence_open ++ lit " x " ++ fence_close) fence_open = true
  /\ starts_clean (stripFence (fence_open ++ lit " x " ++ fence_close)) = true
  /\ ends_clean (stripFence (fence_open ++ lit " x " ++ fence_close)) = true.
Proof.
  split; [reflexivity|].
  apply (proj2 (proj2 (stripFence_piece_of_response
                         (fence_open ++ lit " x " ++ fence_close)))).
  reflexivity.
Defined.

(* ================================================================= *)
(** ** The background task never rejects *)

(** A [try] block whose handler cannot throw settles normally. *)
Lemma try_catch_settles A (p : Prog A) (handle : JsError -> Prog A) :
  (forall e h, wp (handle e) h (fun r _ => rejected r = false)) ->
  forall h, wp (try_catch p handle) h (fun r _ => rejected r = false).
Proof.
  intros Hh. induction p as [a|e|X c k IH|o q IH]; simpl; intros h.
  - reflexivity.
  - apply Hh.
  - intros r. apply IH.
  - apply IH.
Qed.

Lemma resolved_unit (r : Outcome unit) : rejected r = false -> r = Resolved tt.
Proof. destruct r as [[]|e]; [reflexivity | discriminate]. Qed.

(** X1: for a request with the types of the data model ([task] a string,
    [round] a scalar), and however the collaborators answer,
    [processBuildRequest] and the handler complete normally: everything that
    can throw after the first log line stands inside the [try] of line 56,
    and the [catch] of line 240 only logs, so the promise the handler drops
    is not rejected. The template literal of line 54 stands before that
    [try]: a body whose [task] or [round] is an object that cannot be
    converted to a string is outside the request type and outside this
    property. *)
Theorem processBuildRequest_never_rejects
    (base64_decode base64_encode : jsstr -> jsstr) (STUDENT_SECRET : option jsstr)
    (env : Oracle) (body : BuildRequest) :
  (forall h,
      fst (run env (processBuildRequest base64_decode base64_encode body) h)
      = Resolved tt)
  /\ fst (run env (handler base64_decode base64_encode STUDENT_SECRET body) [])
     = Resolved tt.
Proof.
  assert (H : forall h,
             wp (processBuildRequest base64_decode base64_encode body) h
                (fun r _ => rejected r = false)).
  { intros h. unfold processBuildRequest.
    cbn [bind console_log emit wp].
    apply try_catch_settles. intros e h'. reflexivity. }
  split.
  - intros h. apply resolved_unit. exact (wp_sound env _ _ _ (H h)).
  - apply resolved_unit.
    refine (wp_sound env _ [] (fun r _ => rejected r = false) _).
    unfold handler.
    destruct (negb (strict_eq (secret body) (env_secret STUDENT_SECRET))).
    + reflexivity.
    + cbn [bind console_log emit wp]. apply H.
Qed.

(* ================================================================= *)
(** ** Time spent backing off *)

Lemma total_wait_app (a b : Trace) : total_wait (a ++ b) = (total_wait a + total_wait b)%Z.
Proof.
  unfold total_wait. induction a as [|e a IH]; [reflexivity|].
  simpl. destruct (wait_ms e); simpl; rewrite IH; lia.
Qed.

Lemma failed_attempts_wait (url : jsstr) (payload : NotificationPayload)
    (errs : list JsError) :
  forall i : Z,
    (0 <= i)%Z ->
    total_wait (failed_attempts errs i url payload)
    = ((2 ^ (i + Z.of_nat (List.length errs)) - 2 ^ i) * 1000)%Z.
Proof.
  induction errs as [|e errs IH]; intros i Hi.
  - cbn [failed_attempts List.length Z.of_nat].
    change (total_wait []) with 0%Z. rewrite Z.add_0_r. lia.
  - cbn [failed_attempts]. rewrite total_wait_app, IH by lia.
    replace (i + Z.of_nat (List.length (e :: errs)))%Z
      with (i + 1 + Z.of_nat (List.length errs))%Z by (simpl List.length; lia).
    unfold total_wait. cbn [collect wait_ms fold_right].
    rewrite (Z.pow_add_r 2 i 1) by lia. lia.
Qed.

Lemma failed_attempts_count (url : jsstr) (payload : NotificationPayload)
    (errs : list JsError) :
  forall i : Z,
    List.length (filter failed_notification (failed_attempts errs i url payload))
    = List.length errs.
Proof.
  induction errs as [|e errs IH]; intros i; [reflexivity|].
  cbn [failed_attempts]. rewrite filter_app, length_app, IH. reflexivity.
Qed.

(** X9: a notification delivery with [k] failed attempts spends
    [2 ^ k - 1] seconds in its timer waits, the wait after a fourth failure
    included: at most 15 seconds. *)
Theorem notify_backoff_time (env : Oracle) (url : jsstr)
    (payload : NotificationPayload) (h : Trace) :
  exists evs,
    snd (run env (notify url payload) h) = h ++ evs
    /\ (List.length (filter failed_notification evs) <= 4)%nat
    /\ total_wait evs
       = ((2 ^ Z.of_nat (List.length (filter failed_notification evs)) - 1) * 1000)%Z
    /\ (total_wait evs <= 15000)%Z.
Proof.
  assert (H : wp (notify url payload) h
                (fun _ tr =>
                   exists errs ending,
                     (List.length errs <= 4)%nat
                     /\ tr = h ++ failed_attempts errs 0 url payload ++ ending
                     /\ filter failed_notification ending = []
                     /\ total_wait ending = 0%Z)).
  { unfold notify. apply wp_bind. eapply wp_mono; [|apply notifyLoop_wp].
    intros r tr (errs & Hlen & -> & ->).
    destruct (List.length errs <? 4)%nat; simpl.
    - exists errs, (successful_attempt url payload). repeat split; auto.
    - exists errs, [ev_final_failure]. repeat split; auto.
      now rewrite app_nil_r, <- app_assoc. }
  destruct (wp_sound env _ _ _ H) as (errs & ending & Hlen & Htr & Hf & Hw).
  exists (failed_attempts errs 0 url payload ++ ending).
  assert (Hcount : List.length
                     (filter failed_notification
                        (failed_attempts errs 0 url payload ++ ending))
                   = List.length errs)
    by (rewrite filter_app, Hf, app_nil_r; apply failed_attempts_count).
  assert (Hwait : total_wait (failed_attempts errs 0 url payload ++ ending)
                  = ((2 ^ Z.of_nat (List.length errs) - 1) * 1000)%Z).
  { rewrite total_wait_app, Hw, failed_attempts_wait by lia.
    rewrite Z.add_0_l, Z.pow_0_r. lia. }
  split; [exact Htr|]. rewrite Hcount, Hwait. split; [exact Hlen|]. split; [reflexivity|].
  assert (Hp : (2 ^ Z.of_nat (List.length errs) <= 2 ^ 4)%Z)
    by (apply Z.pow_le_mono_r; lia).
  change (2 ^ 4)%Z with 16%Z in Hp. lia.
Qed.

(* ================================================================= *)
(** ** The pipeline as a whole *)

Lemma split_second (p q rest : jsstr) :
  ~ In comma p -> ~ In comma q ->
  (rest = [] \/ exists r, rest = comma :: r) ->
  nth_error (split comma (p ++ comma :: q ++ rest)) 1 = Some q.
Proof.
  intros Hp Hq Hrest.
  assert (Hsplit : exists tl, split comma (q ++ rest) = q :: tl).
  { clear Hp. induction q as [|c q IH]; simpl.
    - destruct Hrest as [->|[r ->]]; simpl; now eexists.
    - destruct (N.eqb_spec c comma) as [->|_].
      + exfalso. apply Hq. now left.
      + destruct IH as [tl ->]; [intros H; apply Hq; now right|]. now eexists. }
  destruct Hsplit as [tl Htl].
  induction p as [|c p IH]; simpl.
  - rewrite Htl. reflexivity.
  - destruct (N.eqb_spec c comma) as [->|_].
    + exfalso. apply Hp. now left.
    + assert (Hp' : ~ In comma p) by (intros H; apply Hp; now right).
      specialize (IH Hp').
      destruct (split comma (p ++ comma :: q ++ rest)) as [|w [|w' ws]];
        try discriminate IH.
      exact IH.
Qed.

(** A piece found anywhere in a nest of concatenations. *)
Ltac search_Contains :=
  first [ apply Contains_refl
        | apply Contains_app_r; search_Contains
        | apply Contains_app_l; search_Contains ].

Lemma attachmentNote_Contains (name decoded : jsstr) :
  Contains name (attachmentNote name decoded)
  /\ Contains decoded (attachmentNote name decoded).
Proof.
  unfold attachmentNote. split; find_Contains ltac:(apply Contains_refl).
Qed.

Lemma llmPrompt_Contains_attachment (brief att joined : jsstr) :
  Contains att (llmPrompt brief att joined).
Proof.
  unfold llmPrompt, lines. cbn [join]. find_Contains ltac:(apply Contains_refl).
Qed.

Lemma readmeContent_Contains (repoName brief : jsstr) :
  Contains repoName (readmeContent repoName brief)
  /\ Contains brief (readmeContent repoName brief).
Proof.
  unfold readmeContent, lines. cbn [join]. split; search_Contains.
Qed.

(** Choosing a number up to eight, for the length of an explicit list. *)
Ltac pick_nat tac :=
  first [ exists 0%nat; tac | exists 1%nat; tac | exists 2%nat; tac
        | exists 3%nat; tac | exists 4%nat; tac | exists 5%nat; tac
        | exists 6%nat; tac | exists 7%nat; tac | exists 8%nat; tac ].

Opaque lit.

Section Pipeline.

Variable base64_decode : jsstr -> jsstr.
Variable base64_encode : jsstr -> jsstr.
Variable STUDENT_SECRET : option jsstr.
Variable env : Oracle.

Let serve (body : BuildRequest) : Trace :=
  trace env (handler base64_decode base64_encode STUDENT_SECRET body).

(** Every way an accepted request can go: by round, by the shape of its
    attachments and checks, and by how each call settles. *)
Ltac every_path Hs body :=
  unfold serve; cbv zeta;
  pattern (trace env (handler base64_decode base64_encode STUDENT_SECRET body));
  apply wp_trace; unfold handler; rewrite Hs;
  unfold processBuildRequest, round1, round2, postRound, notify,
    attachmentContent, joinedChecks, call_order;
  request_cases body;
  match goal with
  | atts : option (list Attachment), chks : option (list jsstr)
    |- context [strict_eq ?rnd (JNum 1)] =>
      destruct (strict_eq rnd (JNum 1)) eqn:E1;
      [ destruct atts as [[|a l]|];
        [| destruct (nth_error (split comma (att_url a)) 1) |];
        destruct chks
      | destruct (strict_eq rnd (JNum 2)) eqn:E2 ]
  end;
  explore.

(** X2: every request is answered exactly once: 200 when the secret is
    the configured one, 403 otherwise; the background task never touches the
    response. *)
Theorem one_response_per_request (body : BuildRequest) :
  collect response (serve body)
  = [if strict_eq (secret body) (env_secret STUDENT_SECRET)
     then (200%Z, msg_received) else (403%Z, msg_invalid_secret)].
Proof.
  destruct (strict_eq (secret body) (env_secret STUDENT_SECRET)) eqn:Hs.
  - every_path Hs body; reflexivity.
  - unfold serve, trace, handler. rewrite Hs. reflexivity.
Qed.

(** X3: in an accepted request at most one call outside the notification
    loop is rejected; when one is, it is the last call of the request, the
    next and last event is the log of that very error, and no notification
    is attempted. *)
Theorem rejection_aborts_silently (body : BuildRequest) :
  strict_eq (secret body) (env_secret STUDENT_SECRET) = true ->
  (List.length (collect abort_error (serve body)) <= 1)%nat
  /\ forall error,
      collect abort_error (serve body) = [error] ->
      collect notification (serve body) = []
      /\ exists pre e,
          serve body = pre ++ [e; ev_build_error error]
          /\ abort_error e = Some error.
Proof.
  intros Hs. every_path Hs body.
  all: split; [cbn; lia|].
  all: intros error Herr; cbn in Herr.
  all: first [ discriminate Herr
             | injection Herr as <-; split; [reflexivity|];
               do 2 eexists; split; [find_split | reflexivity] ].
Qed.

(** X4: every call on a repository targets the repository named by
    [task] under the identity the lookup resolved, the project is created
    under the name [task] and public, and without a resolved identity no
    repository call is made. *)
Theorem repository_calls_target_task (body : BuildRequest) :
  strict_eq (secret body) (env_secret STUDENT_SECRET) = true ->
  (forall login,
      collect authenticated (serve body) = [login] ->
      Forall (fun t => t = (login, task body)) (collect repo_target (serve body)))
  /\ Forall (fun p => p = (task body, false)) (collect created_project (serve body))
  /\ (collect authenticated (serve body) = [] ->
      existsb is_repository_call (serve body) = false).
Proof.
  intros Hs. every_path Hs body.
  all: split; [intros login Hl; cbn in Hl;
               first [discriminate Hl | injection Hl as <-; all_same] |].
  all: split; [all_same|].
  all: intros Hn; first [discriminate Hn | reflexivity].
Qed.

(** X5: the calls of an accepted request follow the order of the source
    for its round: a beginning of that order, each call made only after all
    the earlier ones, then at most four notification attempts, and these
    only after the whole order went through. *)
Theorem calls_follow_round_order (body : BuildRequest) :
  strict_eq (secret body) (env_secret STUDENT_SECRET) = true ->
  exists n k,
    collect call_kind (serve body)
    = firstn n (call_order (round body)) ++ repeat KNotify k
    /\ (1 <= n)%nat
    /\ (k <= 4)%nat
    /\ (k = 0 \/ n = List.length (call_order (round body)))%nat.
Proof.
  intros Hs. unfold call_order. every_path Hs body.
  all: pick_nat ltac:(pick_nat ltac:(solve [split; [reflexivity|]; cbn; lia])).
Qed.

(** X8: one request costs at most one generation call, four notification
    attempts, twelve collaborator calls in all, and twenty seconds of timer
    waits. *)
Theorem request_is_bounded (body : BuildRequest) :
  (List.length (collect generation_prompt (serve body)) <= 1)%nat
  /\ (List.length (collect notification (serve body)) <= 4)%nat
  /\ (List.length (filter is_call (serve body)) <= 12)%nat
  /\ (0 <= total_wait (serve body) <= 20000)%Z.
Proof.
  destruct (strict_eq (secret body) (env_secret STUDENT_SECRET)) eqn:Hs.
  - every_path Hs body.
    all: split; [cbn; lia|]; split; [cbn; lia|]; split; [cbn; lia|].
    all: unfold total_wait; cbn [collect wait_ms fold_right];
      split; [apply Z.leb_le | apply Z.leb_le]; vm_compute; reflexivity.
  - unfold serve, trace, handler. rewrite Hs. cbn.
    repeat split; try lia; discriminate.
Qed.

(** X6: round 1 publishes what was generated: without a resolved
    generation call nothing is written; with the generated [text], the
    upsert calls are, in this order and as far as the round gets, index.html
    with the fence-stripped [text], README.md with the readme that embeds
    the task and the brief verbatim, and LICENSE with the fixed licence, all
    base64-encoded and none with a version token; all three once the
    post-round phase is reached. *)
Theorem round1_publishes_generated_document (body : BuildRequest) :
  strict_eq (secret body) (env_secret STUDENT_SECRET) = true ->
  round body = JNum 1 ->
  (collect generated_text (serve body) = [] ->
   collect written_content (serve body) = [])
  /\ (forall text,
        collect generated_text (serve body) = [text] ->
        exists n,
          collect written_content (serve body)
          = firstn n
              [(index_html, base64_encode (stripFence text), None);
               (README_md,
                base64_encode (readmeContent (task body) (brief body)), None);
               (LICENSE, base64_encode licenseContent, None)]
          /\ (reaches_post_round (serve body) = true -> n = 3%nat))
  /\ Contains (task body) (readmeContent (task body) (brief body))
  /\ Contains (brief body) (readmeContent (task body) (brief body)).
Proof.
  intros Hs Hr.
  split; [|split; [|apply readmeContent_Contains]];
    revert Hr; every_path Hs body; intros Hr;
    try (rewrite Hr in E1; discriminate E1).
  all: try (intros Hg; first [discriminate Hg | reflexivity]).
  all: intros text Hg; cbn in Hg; first [discriminate Hg | injection Hg as <-].
  all: pick_nat ltac:(solve [split; [reflexivity|];
                             intros Hp; first [discriminate Hp | reflexivity]]).
Qed.

(** X7: round 2 publishes what was generated: without a resolved
    generation call nothing is written; with the file read and the
    generated [text], exactly one upsert call is made, for index.html, with
    the base64 of the fence-stripped [text] and the sha of the file read. *)
Theorem round2_publishes_generated_document (body : BuildRequest) :
  strict_eq (secret body) (env_secret STUDENT_SECRET) = true ->
  round body = JNum 2 ->
  (collect generated_text (serve body) = [] ->
   collect written_content (serve body) = [])
  /\ (forall file text,
        collect file_read (serve body) = [file] ->
        collect generated_text (serve body) = [text] ->
        collect written_content (serve body)
        = [(index_html, base64_encode (stripFence text), Some (sha file))]).
Proof.
  intros Hs Hr.
  split; revert Hr; every_path Hs body; intros Hr;
    try (rewrite Hr in E1; discriminate E1);
    try (rewrite Hr in E2; discriminate E2).
  all: try (intros Hg; first [discriminate Hg | reflexivity]).
  all: intros file text Hf Hg; cbn in Hf, Hg;
    first [ discriminate Hf | discriminate Hg
          | injection Hf as <-; injection Hg as <-; reflexivity ].
Qed.

(** X10: what a round does not read does not matter. Round 1 reads the
    first attachment only, and an absent list of attachments is an empty
    one; any other round reads neither the attachments nor the checks, so a
    revision request without checks goes through. *)
Theorem unread_fields_do_not_matter (body : BuildRequest) :
  (forall a others,
      serve (with_attachments (Some (a :: others)) body)
      = serve (with_attachments (Some [a]) body))
  /\ serve (with_attachments None body) = serve (with_attachments (Some []) body)
  /\ (round body <> JNum 1 ->
      forall atts chks,
        serve (with_attachments atts (with_checks chks body)) = serve body).
Proof.
  split; [|split].
  - intros a others. reflexivity.
  - reflexivity.
  - intros Hr atts chks.
    assert (E1 : strict_eq (round body) (JNum 1) = false)
      by (destruct (strict_eq (round body) (JNum 1)) eqn:E; [|reflexivity];
          apply strict_eq_eq in E; contradiction).
    unfold serve. f_equal.
    unfold handler, processBuildRequest, postRound, notificationPayload.
    cbn [secret task round brief attachments checks email nonce evaluation_url
         with_attachments with_checks].
    rewrite E1. reflexivity.
Qed.

(** X11: in round 1 the prompt embeds the first attachment by its name
    and by the decoded text of the second comma-separated segment of its
    url: what follows a further comma in the url is not read. *)
Theorem prompt_embeds_first_attachment
    (body : BuildRequest) (C : list jsstr) (a : Attachment)
    (others : list Attachment) (p q rest : jsstr) :
  strict_eq (secret body) (env_secret STUDENT_SECRET) = true ->
  round body = JNum 1 ->
  checks body = Some C ->
  attachments body = Some (a :: others) ->
  att_url a = p ++ comma :: q ++ rest ->
  ~ In comma p -> ~ In comma q ->
  (rest = [] \/ exists r, rest = comma :: r) ->
  Forall (fun prompt =>
            prompt = llmPrompt (brief body)
                       (attachmentNote (att_name a) (base64_decode q))
                       (join newline C)
            /\ Contains (att_name a) prompt
            /\ Contains (base64_decode q) prompt)
         (collect generation_prompt (serve body))
  /\ (collect authenticated (serve body) <> [] ->
      List.length (collect generation_prompt (serve body)) = 1%nat).
Proof.
  intros Hs Hr Hc Ha Hurl Hp Hq Hrest.
  unfold serve. pattern (trace env (handler base64_decode base64_encode STUDENT_SECRET body)).
  apply wp_trace. unfold handler. rewrite Hs.
  unfold processBuildRequest, round1, postRound, notify, attachmentContent, joinedChecks.
  request_cases body. subst.
  rewrite Hurl, split_second by assumption.
  explore.
  all: split;
    [ first [ apply Forall_nil
            | apply Forall_cons; [|apply Forall_nil];
              split; [reflexivity|];
              split; (eapply Contains_trans;
                      [|apply llmPrompt_Contains_attachment]);
              apply attachmentNote_Contains ]
    | intros Hl; first [reflexivity | now contradiction Hl] ].
Qed.

(** X12: an accepted request with the types of the data model, all of
    whose awaited calls settle, ends in exactly one of three ways, told by
    its last event: the callback endpoint accepted a notification; or four
    notification attempts failed and the final failure is logged; or a step
    threw before any notification and the error is logged. No error is
    logged before that last event. *)
Theorem request_ends_three_ways (body : BuildRequest) :
  strict_eq (secret body) (env_secret STUDENT_SECRET) = true ->
  exists pre last_event,
    serve body = pre ++ [last_event]
    /\ existsb is_error_log pre = false
    /\ ((last_event = ev_notified
         /\ List.length (filter delivered (serve body)) = 1%nat)
        \/ (last_event = ev_final_failure
            /\ List.length (collect notification (serve body)) = 4%nat
            /\ filter delivered (serve body) = [])
        \/ (exists error,
               last_event = ev_build_error error
               /\ collect notification (serve body) = [])).
Proof.
  intros Hs. every_path Hs body.
  all: do 2 eexists; split; [find_split|]; split; [reflexivity|].
  all: first [ left; split; reflexivity
             | right; left; split; [reflexivity|]; split; reflexivity
             | right; right; eexists; split; reflexivity ].
Qed.

End Pipeline.

Transparent lit.

(* ================================================================= *)
(** ** These properties on the sample requests *)

Lemma rejection_aborts_silently_witness :
  strict_eq (secret sample_round2) (env_secret (Some sample_secret)) = true
  /\ collect abort_error (sample_trace stale_env sample_round2)
     = [ServiceError 409 "index.html does not match"]
  /\ collect notification (sample_trace stale_env sample_round2) = []
  /\ exists pre e,
       sample_trace stale_env sample_round2
       = pre ++ [e; ev_build_error (ServiceError 409 "index.html does not match")]
       /\ abort_error e = Some (ServiceError 409 "index.html does not match").
Proof.
  assert (Ha : strict_eq (secret sample_round2) (env_secret (Some sample_secret)) = true)
    by (vm_compute; reflexivity).
  assert (He : collect abort_error (sample_trace stale_env sample_round2)
               = [ServiceError 409 "index.html does not match"])
    by (vm_compute; reflexivity).
  split; [exact Ha|]. split; [exact He|].
  exact (proj2 (@rejection_aborts_silently plain plain (Some sample_secret) stale_env
                  sample_round2 Ha) _ He).
Defined.

Lemma repository_calls_target_task_witness :
  strict_eq (secret sample_round1) (env_secret (Some sample_secret)) = true
  /\ collect authenticated (sample_trace sample_env sample_round1) = [lit "octocat"]
  /\ Forall (fun t => t = (lit "octocat", task sample_round1))
            (collect repo_target (sample_trace sample_env sample_round1))
  /\ Forall (fun p => p = (task sample_round1, false))
            (collect created_project (sample_trace sample_env sample_round1)).
Proof.
  assert (Ha : strict_eq (secret sample_round1) (env_secret (Some sample_secret)) = true)
    by (vm_compute; reflexivity).
  assert (Hl : collect authenticated (sample_trace sample_env sample_round1)
               = [lit "octocat"]) by (vm_compute; reflexivity).
  destruct (@repository_calls_target_task plain plain (Some sample_secret) sample_env
              sample_round1 Ha) as (Htarget & Hcreated & _).
  split; [exact Ha|]. split; [exact Hl|]. split; [exact (Htarget _ Hl) | exact Hcreated].
Defined.

Lemma calls_follow_round_order_witness :
  strict_eq (secret sample_round1) (env_secret (Some sample_secret)) = true
  /\ exists n k,
       collect call_kind (sample_trace sample_env sample_round1)
       = firstn n (call_order (round sample_round1)) ++ repeat KNotify k
       /\ (1 <= n)%nat
       /\ (k <= 4)%nat
       /\ (k = 0 \/ n = List.length (call_order (round sample_round1)))%nat.
Proof.
  assert (Ha : strict_eq (secret sample_round1) (env_secret (Some sample_secret)) = true)
    by (vm_compute; reflexivity).
  split; [exact Ha|].
  exact (@calls_follow_round_order plain plain (Some sample_secret) sample_env
           sample_round1 Ha).
Defined.

Lemma round1_publishes_generated_document_witness :
  strict_eq (secret sample_round1) (env_secret (Some sample_secret)) = true
  /\ round sample_round1 = JNum 1
  /\ collect generated_text (sample_trace sample_env sample_round1)
     = [fence_open ++ newline ++ lit "<h1>new</h1>" ++ newline ++ fence_close]
  /\ exists n,
       collect written_content (sample_trace sample_env sample_round1)
       = firstn n
           [(index_html,
             plain (stripFence (fence_open ++ newline ++ lit "<h1>new</h1>"
                                ++ newline ++ fence_close)), None);
            (README_md,
             plain (readmeContent (task sample_round1) (brief sample_round1)), None);
            (LICENSE, plain licenseContent, None)]
       /\ (reaches_post_round (sample_trace sample_env sample_round1) = true ->
           n = 3%nat).
Proof.
  assert (Ha : strict_eq (secret sample_round1) (env_secret (Some sample_secret)) = true)
    by (vm_compute; reflexivity).
  assert (Hg : collect generated_text (sample_trace sample_env sample_round1)
               = [fence_open ++ newline ++ lit "<h1>new</h1>" ++ newline ++ fence_close])
    by (vm_compute; reflexivity).
  split; [exact Ha|]. split; [reflexivity|]. split; [exact Hg|].
  exact (proj1 (proj2 (@round1_publishes_generated_document plain plain
                         (Some sample_secret) sample_env sample_round1 Ha eq_refl))
           _ Hg).
Defined.

Lemma round2_publishes_generated_document_witness :
  strict_eq (secret sample_round2) (env_secret (Some sample_secret)) = true
  /\ round sample_round2 = JNum 2
  /\ collect file_read (sample_trace sample_env sample_round2) = [sample_file]
  /\ collect generated_text (sample_trace sample_env sample_round2)
     = [fence_open ++ newline ++ lit "<h1>new</h1>" ++ newline ++ fence_close]
  /\ collect written_content (sample_trace sample_env sample_round2)
     = [(index_html,
         plain (stripFence (fence_open ++ newline ++ lit "<h1>new</h1>"
                            ++ newline ++ fence_close)),
         Some (sha sample_file))].
Proof.
  assert (Ha : strict_eq (secret sample_round2) (env_secret (Some sample_secret)) = true)
    by (vm_compute; reflexivity).
  assert (Hf : collect file_read (sample_trace sample_env sample_round2) = [sample_file])
    by (vm_compute; reflexivity).
  assert (Hg : collect generated_text (sample_trace sample_env sample_round2)
               = [fence_open ++ newline ++ lit "<h1>new</h1>" ++ newline ++ fence_close])
    by (vm_compute; reflexivity).
  split; [exact Ha|]. split; [reflexivity|]. split; [exact Hf|]. split; [exact Hg|].
  exact (proj2 (@round2_publishes_generated_document plain plain (Some sample_secret)
                  sample_env sample_round2 Ha eq_refl) _ _ Hf Hg).
Defined.

Lemma unread_fields_do_not_matter_witness :
  round sample_round2 <> JNum 1
  /\ sample_trace sample_env (with_attachments None (with_checks None sample_round2))
     = sample_trace sample_env sample_round2.
Proof.
  assert (Hr : round sample_round2 <> JNum 1) by discriminate.
  split; [exact Hr|].
  exact (proj2 (proj2 (@unread_fields_do_not_matter plain plain (Some sample_secret)
                         sample_env sample_round2)) Hr None None).
Defined.

Lemma prompt_embeds_first_attachment_witness :
  strict_eq (secret sample_round1) (env_secret (Some sample_secret)) = true
  /\ ~ In comma (lit "data:text/plain;base64")
  /\ ~ In comma (lit "aGVsbG8=")
  /\ Forall (fun prompt =>
               prompt = llmPrompt (brief sample_round1)
                          (attachmentNote (lit "sample.txt") (plain (lit "aGVsbG8=")))
                          (join newline [lit "Page has a title"; lit "Image is displayed"])
               /\ Contains (lit "sample.txt") prompt
               /\ Contains (plain (lit "aGVsbG8=")) prompt)
            (collect generation_prompt (sample_trace sample_env sample_round1)).
Proof.
  assert (Ha : strict_eq (secret sample_round1) (env_secret (Some sample_secret)) = true)
    by (vm_compute; reflexivity).
  assert (Hp : ~ In comma (lit "data:text/plain;base64"))
    by (vm_compute; intuition discriminate).
  assert (Hq : ~ In comma (lit "aGVsbG8="))
    by (vm_compute; intuition discriminate).
  split; [exact Ha|]. split; [exact Hp|]. split; [exact Hq|].
  exact (proj1 (@prompt_embeds_first_attachment plain plain (Some sample_secret)
                  sample_env sample_round1
                  [lit "Page has a title"; lit "Image is displayed"]
                  {| att_name := lit "sample.txt";
                     att_url := lit "data:text/plain;base64,aGVsbG8=" |}
                  [] (lit "data:text/plain;base64") (lit "aGVsbG8=") []
                  Ha eq_refl eq_refl eq_refl eq_refl Hp Hq (or_introl eq_refl))).
Defined.

Lemma request_ends_three_ways_witness :
  strict_eq (secret sample_round3) (env_secret (Some sample_secret)) = true
  /\ exists pre last_event,
       sample_trace (flaky_env 5) sample_round3 = pre ++ [last_event]
       /\ existsb is_error_log pre = false.
Proof.
  assert (Ha : strict_eq (secret sample_round3) (env_secret (Some sample_secret)) = true)
    by (vm_compute; reflexivity).
  split; [exact Ha|].
  destruct (@request_ends_three_ways plain plain (Some sample_secret) (flaky_env 5)
              sample_round3 Ha) as (pre & last_event & Htr & Hpre & _).
  exists pre, last_event. split; assumption.
Defined.
